(** * Zeno auto-rigger: a shallow embedding of the rigging operators

    Sources embedded here:
    - [tools/operators/auto_rigger.py]: [AutoRiggerTool], [AutoRiggerProperties],
      the operators create-guides, generate-rig, bind-mesh and clear-binding;
    - [tools/operators/create_armature.py]: the create-human-rig operator.

    The operators are straight-line sequences of calls into the host (Blender's
    [bpy]).  The host is modelled as an explicit state, [Blender], threaded
    through a state-and-exception monad [Op]; a Python exception is the
    [Raise] result.

    Numbers.  Python floats and the components of [mathutils.Vector] are
    idealised as exact rationals ([Q]); rounding is not modelled.  Equality of
    computed coordinates is therefore stated with [==] on [Q], component-wise
    [veq] on vectors.

    Host operators are modelled in object mode, on objects that are visible and
    selectable, and a name requested with [obj.name = n] is taken to be free
    (the host would otherwise append a numeric suffix). *)

From Stdlib Require Import QArith Lqa Lia List Ascii String Bool Arith.
Import ListNotations.

Open Scope string_scope.
Open Scope list_scope.
Open Scope Q_scope.

(** ** mathutils.Vector *)

Record Vector : Type := Vec { vx : Q; vy : Q; vz : Q }.

Definition vadd (u v : Vector) : Vector :=
  Vec (vx u + vx v) (vy u + vy v) (vz u + vz v).

Definition vscale (k : Q) (v : Vector) : Vector :=
  Vec (k * vx v) (k * vy v) (k * vz v).

Definition veq (u v : Vector) : Prop :=
  vx u == vx v /\ vy u == vy v /\ vz u == vz v.

Definition vzero : Vector := Vec 0 0 0.

(** Reflection across the sagittal plane: the sign of x flips. *)
Definition mirror_x (v : Vector) : Vector := Vec (- vx v) (vy v) (vz v).

Infix "+v" := vadd (at level 50, left associativity).
Infix "=v" := veq (at level 70, no associativity).

(** ** The host state *)

Inductive IDProp : Type :=
| IDInt (n : Z)
| IDBool (b : bool).

Definition ObjRef := nat.
Bind Scope nat_scope with ObjRef.

Record Constraint : Type := mkConstraint {
  ctype : string;
  target : option ObjRef;
  shrinkwrap_type : string
}.

Record EditBone : Type := mkBone {
  bname : string;
  head : Vector;
  tail : Vector;
  bparent : option string
}.

Record Object : Type := mkObject {
  oid : ObjRef;
  name : string;
  type : string;
  location : Vector;
  bound_box : list Vector;
  select : bool;
  parent : option ObjRef;
  id_props : list (string * IDProp);
  constraints : list Constraint;
  edit_bones : list EditBone
}.

Inductive Mode : Type := OBJECT | EDIT.

(** [AutoRiggerProperties]: the per-scene property group. *)
Inductive NamingConvention : Type := DOTS | UNDERSCORE | CAMELCASE.

Record AutoRiggerProperties : Type := mkProps {
  guide_size : Q;
  bendy_joints : Z;
  stretch_controls : bool;
  naming_convention : NamingConvention;
  show_spine : bool;
  show_arms : bool;
  show_legs : bool;
  show_fingers : bool;
  show_face : bool
}.

Definition default_props : AutoRiggerProperties :=
  mkProps 0.1 0 true DOTS true true true false false.

Record Blender : Type := mkBlender {
  objects : list Object;            (* bpy.data.objects *)
  active : option ObjRef;           (* context.active_object *)
  mode : Mode;
  auto_rigger_props : AutoRiggerProperties;   (* context.scene.auto_rigger_props *)
  reports : list (string * string)  (* what self.report has sent to the host *)
}.

Inductive Status : Type := FINISHED | CANCELLED.

(** *** Field updates *)

Definition set_name (n : string) (o : Object) : Object :=
  mkObject (oid o) n (type o) (location o) (bound_box o) (select o) (parent o)
           (id_props o) (constraints o) (edit_bones o).

Definition set_select (b : bool) (o : Object) : Object :=
  mkObject (oid o) (name o) (type o) (location o) (bound_box o) b (parent o)
           (id_props o) (constraints o) (edit_bones o).

Definition set_location (v : Vector) (o : Object) : Object :=
  mkObject (oid o) (name o) (type o) v (bound_box o) (select o) (parent o)
           (id_props o) (constraints o) (edit_bones o).

Definition set_parent (p : option ObjRef) (o : Object) : Object :=
  mkObject (oid o) (name o) (type o) (location o) (bound_box o) (select o) p
           (id_props o) (constraints o) (edit_bones o).

Definition set_id_props (ps : list (string * IDProp)) (o : Object) : Object :=
  mkObject (oid o) (name o) (type o) (location o) (bound_box o) (select o) (parent o)
           ps (constraints o) (edit_bones o).

Definition set_constraints (cs : list Constraint) (o : Object) : Object :=
  mkObject (oid o) (name o) (type o) (location o) (bound_box o) (select o) (parent o)
           (id_props o) cs (edit_bones o).

Definition set_edit_bones (bs : list EditBone) (o : Object) : Object :=
  mkObject (oid o) (name o) (type o) (location o) (bound_box o) (select o) (parent o)
           (id_props o) (constraints o) bs.

Definition set_objects (os : list Object) (s : Blender) : Blender :=
  mkBlender os (active s) (mode s) (auto_rigger_props s) (reports s).

Definition set_active (a : option ObjRef) (s : Blender) : Blender :=
  mkBlender (objects s) a (mode s) (auto_rigger_props s) (reports s).

Definition set_mode (m : Mode) (s : Blender) : Blender :=
  mkBlender (objects s) (active s) m (auto_rigger_props s) (reports s).

Definition set_props (p : AutoRiggerProperties) (s : Blender) : Blender :=
  mkBlender (objects s) (active s) (mode s) p (reports s).

Definition add_report (level msg : string) (s : Blender) : Blender :=
  mkBlender (objects s) (active s) (mode s) (auto_rigger_props s)
            (reports s ++ [(level, msg)]).

(** [obj[key] = value] on the custom properties. *)
Fixpoint assoc_set {V : Type} (k : string) (v : V) (l : list (string * V))
  : list (string * V) :=
  match l with
  | [] => [(k, v)]
  | (k', v') :: r => if String.eqb k' k then (k, v) :: r else (k', v') :: assoc_set k v r
  end.

(** *** Object references *)

Definition find_object (r : ObjRef) (os : list Object) : option Object :=
  find (fun o => Nat.eqb (oid o) r) os.

Definition update_object (r : ObjRef) (f : Object -> Object) (os : list Object)
  : list Object :=
  map (fun o => if Nat.eqb (oid o) r then f o else o) os.

Definition fresh_oid (os : list Object) : ObjRef :=
  S (list_max (map oid os)).

(** ** The operator monad: host state and Python exceptions *)

Inductive Result (A : Type) : Type :=
| Ok (a : A)
| Raise (exn : string).
Arguments Ok {A} a.
Arguments Raise {A} exn.

Definition Op (A : Type) : Type := Blender -> Result (A * Blender).

Definition ret {A} (a : A) : Op A := fun s => Ok (a, s).

Definition bind {A B} (m : Op A) (k : A -> Op B) : Op B :=
  fun s => match m s with
           | Ok (a, s') => k a s'
           | Raise e => Raise e
           end.

Definition raise {A} (e : string) : Op A := fun _ => Raise e.

Definition gets {A} (f : Blender -> A) : Op A := fun s => Ok (f s, s).

Definition modify_state (f : Blender -> Blender) : Op unit := fun s => Ok (tt, f s).

Declare Scope op_scope.
Delimit Scope op_scope with op.
Notation "x <- m ;; k" := (bind m (fun x => k))
  (at level 100, m at next level, right associativity) : op_scope.
Notation "m ;;; k" := (bind m (fun _ => k))
  (at level 100, right associativity) : op_scope.
Open Scope op_scope.

Fixpoint for_each {A} (l : list A) (body : A -> Op unit) : Op unit :=
  match l with
  | [] => ret tt
  | x :: r => body x ;;; for_each r body
  end.

(** Attribute access through a possibly-[None] value. *)
Definition expect {A} (x : option A) : Op A :=
  match x with
  | Some a => ret a
  | None => raise "AttributeError"
  end.

(** Reading and writing the object behind a reference. *)
Definition deref (r : ObjRef) : Op Object :=
  fun s => match find_object r (objects s) with
           | Some o => Ok (o, s)
           | None => Raise "ReferenceError"
           end.

Definition modify (r : ObjRef) (f : Object -> Object) : Op unit :=
  fun s => match find_object r (objects s) with
           | Some _ => Ok (tt, set_objects (update_object r f (objects s)) s)
           | None => Raise "ReferenceError"
           end.

(** ** Host API (bpy) *)

(** [context.active_object] / [bpy.context.object]: [None] unless the active
    reference points at a live object. *)
Definition active_object (s : Blender) : option Object :=
  match active s with
  | Some r => find_object r (objects s)
  | None => None
  end.

Definition context_active_object : Op (option Object) := gets active_object.

Definition report (level msg : string) : Op unit :=
  modify_state (add_report level msg).

Definition new_object (r : ObjRef) (n ty : string) (loc : Vector)
    (bb : list Vector) (bones : list EditBone) : Object :=
  mkObject r n ty loc bb true None [] [] bones.

(** A new object is appended to [bpy.data.objects], becomes the only selected
    object and the active one. *)
Definition linked (mk : ObjRef -> Object) (s : Blender) : Blender :=
  let o := mk (fresh_oid (objects s)) in
  set_active (Some (oid o)) (set_objects (map (set_select false) (objects s) ++ [o]) s).

Definition link_new (mk : ObjRef -> Object) : Op unit := modify_state (linked mk).

(** Local-space bounding box of a cube of edge [size], in the host's corner
    order. *)
Definition cube_bound_box (size : Q) : list Vector :=
  let h := size / 2 in
  [ Vec (-h) (-h) (-h); Vec (-h) (-h) h; Vec (-h) h h; Vec (-h) h (-h);
    Vec h (-h) (-h);    Vec h (-h) h;    Vec h h h;    Vec h h (-h) ].

(** [bpy.ops.mesh.primitive_cube_add(size=size, location=location)] *)
Definition primitive_cube_add (size : Q) (loc : Vector) : Op unit :=
  link_new (fun r => new_object r "Cube" "MESH" loc (cube_bound_box size) []).

(** The single bone the host puts in a new armature. *)
Definition host_default_bone : EditBone :=
  mkBone "Bone" vzero (Vec 0 0 1) None.

Definition set_mode_op (m : Mode) : Op unit := modify_state (set_mode m).

(** [bpy.ops.object.armature_add(enter_editmode=..., location=...)] *)
Definition armature_add (enter_editmode : bool) (loc : Vector) : Op unit :=
  link_new (fun r => new_object r "Armature" "ARMATURE" loc [] [host_default_bone]) ;;;
  if enter_editmode then set_mode_op EDIT else ret tt.

(** [bpy.ops.object.mode_set(mode=...)] *)
Definition mode_set (m : Mode) : Op unit := set_mode_op m.

(** [guide.constraints.new(type=...)]: appended, returned as its index. *)
Definition constraints_new (r : ObjRef) (ty : string) : Op nat :=
  o <- deref r ;;
  modify r (set_constraints (constraints o ++ [mkConstraint ty None "NEAREST_SURFACE"])) ;;;
  ret (List.length (constraints o)).

Fixpoint list_update {A} (i : nat) (f : A -> A) (l : list A) : list A :=
  match l, i with
  | [], _ => []
  | x :: r, O => f x :: r
  | x :: r, S j => x :: list_update j f r
  end.

Definition constraint_set_target (r : ObjRef) (i : nat) (t : ObjRef) : Op unit :=
  modify r (fun o => set_constraints
    (list_update i (fun c => mkConstraint (ctype c) (Some t) (shrinkwrap_type c))
       (constraints o)) o).

Definition constraint_set_shrinkwrap_type (r : ObjRef) (i : nat) (ty : string) : Op unit :=
  modify r (fun o => set_constraints
    (list_update i (fun c => mkConstraint (ctype c) (target c) ty)
       (constraints o)) o).

(** *** Edit bones of an armature

    A bone handle is the bone's position in [armature.data.edit_bones]. *)

Definition set_head (v : Vector) (b : EditBone) : EditBone :=
  mkBone (bname b) v (tail b) (bparent b).

Definition set_tail (v : Vector) (b : EditBone) : EditBone :=
  mkBone (bname b) (head b) v (bparent b).

Definition set_bparent (p : option string) (b : EditBone) : EditBone :=
  mkBone (bname b) (head b) (tail b) p.

(** [armature.data.edit_bones.new(name)] *)
Definition edit_bones_new (armature : ObjRef) (n : string) : Op nat :=
  a <- deref armature ;;
  modify armature (set_edit_bones (edit_bones a ++ [mkBone n vzero vzero None])) ;;;
  ret (List.length (edit_bones a)).

Definition bone_update (armature : ObjRef) (i : nat) (f : EditBone -> EditBone) : Op unit :=
  modify armature (fun o => set_edit_bones (list_update i f (edit_bones o)) o).

Definition bone_get (armature : ObjRef) (i : nat) : Op EditBone :=
  a <- deref armature ;;
  expect (nth_error (edit_bones a) i).

(** [name in armature.data.edit_bones] *)
Definition bone_in (n : option string) (bs : list EditBone) : bool :=
  match n with
  | Some p => existsb (fun b => String.eqb (bname b) p) bs
  | None => false
  end.

(** [armature.data.edit_bones[name]] *)
Definition bone_lookup (p : string) (bs : list EditBone) : option EditBone :=
  find (fun b => String.eqb (bname b) p) bs.

(** Truth value of an optional string: [None] and the empty string are false. *)
Definition truthy (x : option string) : bool :=
  match x with
  | Some p => negb (String.eqb p "")
  | None => false
  end.

(** Python's [max] and [min] over a sequence of numbers. *)
Definition py_max (l : list Q) : Op Q :=
  match l with
  | [] => raise "ValueError"
  | x :: r => ret (fold_left (fun m y => if Qle_bool y m then m else y) r x)
  end.

Definition py_min (l : list Q) : Op Q :=
  match l with
  | [] => raise "ValueError"
  | x :: r => ret (fold_left (fun m y => if Qle_bool m y then m else y) r x)
  end.

(** ** auto_rigger.py: AutoRiggerTool *)

Module AutoRiggerTool.

(** [create_armature(name, location=(0, 0, 0))] *)
Definition create_armature (n : string) (loc : Vector) : Op Object :=
  armature_add true loc ;;;
  a <- context_active_object ;;
  armature <- expect a ;;
  modify (oid armature) (set_name n) ;;;
  deref (oid armature).

(** [create_bone(armature, name, head, tail, parent_bone=None)] *)
Definition create_bone (armature : ObjRef) (n : string) (hd tl : Vector)
    (parent_bone : option string) : Op EditBone :=
  bone <- edit_bones_new armature n ;;
  bone_update armature bone (set_head hd) ;;;
  bone_update armature bone (set_tail tl) ;;;
  a <- deref armature ;;
  (if truthy parent_bone && bone_in parent_bone (edit_bones a)
   then bone_update armature bone (set_bparent parent_bone)
   else ret tt) ;;;
  bone_get armature bone.

(** The default of [create_guide]'s [size] parameter. *)
Definition create_guide_default_size : Q := 0.1.

(** [create_guide(name, location, size=0.1)] *)
Definition create_guide (n : string) (loc : Vector) (size : Q) : Op Object :=
  primitive_cube_add size loc ;;;
  a <- context_active_object ;;
  guide <- expect a ;;
  modify (oid guide) (set_name n) ;;;
  modify (oid guide) (fun o => set_id_props (assoc_set "bendy_joints" (IDInt 2) (id_props o)) o) ;;;
  modify (oid guide) (fun o => set_id_props (assoc_set "stretchable" (IDBool false) (id_props o)) o) ;;;
  deref (oid guide).

End AutoRiggerTool.

(** ** auto_rigger.py: AUTORIGGER_OT_create_guides *)

Module CreateGuides.

(** The table built in [execute]. *)
Definition guides_data (height width : Q) (center : Vector) : list (string * Vector) :=
  [ (* Spine chain *)
    ("C_Root_Guide", Vec 0 0 0 +v center);
    ("C_Spine_01_Guide", Vec 0 0 (height * 0.2) +v center);
    ("C_Spine_02_Guide", Vec 0 0 (height * 0.4) +v center);
    ("C_Spine_03_Guide", Vec 0 0 (height * 0.6) +v center);
    (* Left arm chain *)
    ("L_Shoulder_Guide", Vec (width * 0.2) 0 (height * 0.8) +v center);
    ("L_Arm_Guide", Vec (width * 0.4) 0 (height * 0.75) +v center);
    ("L_Forearm_Guide", Vec (width * 0.6) 0 (height * 0.65) +v center);
    ("L_Hand_Guide", Vec (width * 0.8) 0 (height * 0.6) +v center);
    (* Right arm chain (mirrored) *)
    ("R_Shoulder_Guide", Vec (- width * 0.2) 0 (height * 0.8) +v center);
    ("R_Arm_Guide", Vec (- width * 0.4) 0 (height * 0.75) +v center);
    ("R_Forearm_Guide", Vec (- width * 0.6) 0 (height * 0.65) +v center);
    ("R_Hand_Guide", Vec (- width * 0.8) 0 (height * 0.6) +v center);
    (* Left leg chain *)
    ("L_Hip_Guide", Vec (width * 0.1) 0 (height * 0.35) +v center);
    ("L_Thigh_Guide", Vec (width * 0.15) 0 (height * 0.25) +v center);
    ("L_Shin_Guide", Vec (width * 0.15) 0 (height * 0.1) +v center);
    ("L_Foot_Guide", Vec (width * 0.15) 0.1 0 +v center);
    (* Right leg chain (mirrored) *)
    ("R_Hip_Guide", Vec (- width * 0.1) 0 (height * 0.35) +v center);
    ("R_Thigh_Guide", Vec (- width * 0.15) 0 (height * 0.25) +v center);
    ("R_Shin_Guide", Vec (- width * 0.15) 0 (height * 0.1) +v center);
    ("R_Foot_Guide", Vec (- width * 0.15) 0.1 0 +v center) ].

(** The body of the loop over [guides_data]; [create_guide] is called with two
    arguments, so its [size] is the default. *)
Definition place_guide (mesh_obj : Object) (entry : string * Vector) : Op unit :=
  let '(n, loc) := entry in
  guide <- AutoRiggerTool.create_guide n loc AutoRiggerTool.create_guide_default_size ;;
  constraint <- constraints_new (oid guide) "SHRINKWRAP" ;;
  constraint_set_target (oid guide) constraint (oid mesh_obj) ;;;
  constraint_set_shrinkwrap_type (oid guide) constraint "NEAREST_SURFACE".

Definition execute : Op Status :=
  a <- context_active_object ;;
  match a with
  | None =>
      report "ERROR" "Please select a mesh object" ;;; ret CANCELLED
  | Some mesh_obj =>
      if negb (String.eqb (type mesh_obj) "MESH") then
        report "ERROR" "Please select a mesh object" ;;; ret CANCELLED
      else
        let bounds := bound_box mesh_obj in
        let center := location mesh_obj in
        zmax <- py_max (map vz bounds) ;;
        zmin <- py_min (map vz bounds) ;;
        let height := zmax - zmin in
        xmax <- py_max (map vx bounds) ;;
        xmin <- py_min (map vx bounds) ;;
        let width := xmax - xmin in
        for_each (guides_data height width center) (place_guide mesh_obj) ;;;
        ret FINISHED
  end.

End CreateGuides.

(** ** auto_rigger.py: AUTORIGGER_OT_generate_rig *)

Module GenerateRig.

(** [bpy.data.objects.get(name)] *)
Definition get_guide_by_name (n : string) : Op (option Object) :=
  gets (fun s => find (fun o => String.eqb (name o) n) (objects s)).

(** [enumerate] *)
Fixpoint enumerate_from {A} (i : nat) (l : list A) : list (nat * A) :=
  match l with
  | [] => []
  | x :: r => (i, x) :: enumerate_from (S i) r
  end.

Definition enumerate {A} (l : list A) : list (nat * A) := enumerate_from 0 l.

(** [bones[-1] if bones else None] *)
Definition last_bone (bones : list EditBone) : option EditBone :=
  match bones with
  | [] => None
  | b :: r => Some (last r b)
  end.

(** The offset given to a bone whose tail has no guide to point at. *)
Definition tail_offset : Vector := Vec 0 0 0.1.

(** The loop of [create_bone_chain], over [enumerate(zip(guide_names, bone_names))],
    with the local list [bones]. *)
Fixpoint chain_loop (armature : ObjRef) (guide_names : list string)
    (items : list (nat * (string * string))) (bones : list EditBone)
  : Op (list EditBone) :=
  match items with
  | [] => ret bones
  | (i, (guide_name, bone_name)) :: rest =>
      g <- get_guide_by_name guide_name ;;
      match g with
      | None => chain_loop armature guide_names rest bones
      | Some guide =>
          let hd := location guide in
          tl <- (if (i <? List.length guide_names - 1)%nat then
                   next_guide <- get_guide_by_name (nth (i + 1) guide_names "") ;;
                   ret (match next_guide with
                        | Some ng => location ng
                        | None => hd +v tail_offset
                        end)
                 else ret (hd +v tail_offset)) ;;
          let parent_bone := last_bone bones in
          bone <- AutoRiggerTool.create_bone armature bone_name hd tl
                    (option_map bname parent_bone) ;;
          chain_loop armature guide_names rest (bones ++ [bone])
      end
  end.

Definition create_bone_chain (armature : ObjRef) (guide_names bone_names : list string)
  : Op (list EditBone) :=
  chain_loop armature guide_names (enumerate (combine guide_names bone_names)) [].

Record Chain : Type := mkChain {
  chain_key : string;
  guides : list string;
  bones : list string
}.

(** The dictionary [chains] of [execute], in insertion order. *)
Definition chains : list Chain :=
  [ mkChain "spine"
      ["C_Root_Guide"; "C_Spine_01_Guide"; "C_Spine_02_Guide"; "C_Spine_03_Guide"]
      ["C_Root_Bone"; "C_Spine_01_Bone"; "C_Spine_02_Bone"; "C_Spine_03_Bone"];
    mkChain "left_arm"
      ["L_Shoulder_Guide"; "L_Arm_Guide"; "L_Forearm_Guide"; "L_Hand_Guide"]
      ["L_Shoulder_Bone"; "L_Arm_Bone"; "L_Forearm_Bone"; "L_Hand_Bone"];
    mkChain "right_arm"
      ["R_Shoulder_Guide"; "R_Arm_Guide"; "R_Forearm_Guide"; "R_Hand_Guide"]
      ["R_Shoulder_Bone"; "R_Arm_Bone"; "R_Forearm_Bone"; "R_Hand_Bone"];
    mkChain "left_leg"
      ["L_Hip_Guide"; "L_Thigh_Guide"; "L_Shin_Guide"; "L_Foot_Guide"]
      ["L_Hip_Bone"; "L_Thigh_Bone"; "L_Shin_Bone"; "L_Foot_Bone"];
    mkChain "right_leg"
      ["R_Hip_Guide"; "R_Thigh_Guide"; "R_Shin_Guide"; "R_Foot_Guide"]
      ["R_Hip_Bone"; "R_Thigh_Bone"; "R_Shin_Bone"; "R_Foot_Bone"] ].

Definition execute : Op Status :=
  armature <- AutoRiggerTool.create_armature "AutoRig" (Vec 0 0 0) ;;
  for_each chains (fun chain =>
    create_bone_chain (oid armature) (guides chain) (bones chain) ;;; ret tt) ;;;
  mode_set OBJECT ;;;
  ret FINISHED.

End GenerateRig.

(** ** auto_rigger.py: AUTORIGGER_OT_clear_binding *)

(** World-space position of an object: its own location carried through the
    chain of its parents (the translation part of [matrix_world]). *)
Fixpoint world_location (fuel : nat) (os : list Object) (o : Object) : Vector :=
  match fuel, parent o with
  | S f, Some p =>
      match find_object p os with
      | Some po => world_location f os po +v location o
      | None => location o
      end
  | _, _ => location o
  end.

Definition matrix_world (os : list Object) (o : Object) : Vector :=
  world_location (List.length os) os o.

Inductive ClearType : Type := CLEAR | CLEAR_KEEP_TRANSFORM.

(** [bpy.ops.object.parent_clear(type=...)]: acts on the selected objects. *)
Definition parent_clear (ty : ClearType) : Op unit :=
  modify_state (fun s =>
    set_objects
      (map (fun o =>
              if select o then
                match ty with
                | CLEAR => set_parent None o
                | CLEAR_KEEP_TRANSFORM =>
                    set_parent None (set_location (matrix_world (objects s) o) o)
                end
              else o)
           (objects s)) s).

Module ClearBinding.

Definition execute : Op Status :=
  a <- context_active_object ;;
  match a with
  | Some active_object =>
      if String.eqb (type active_object) "MESH" then
        parent_clear CLEAR_KEEP_TRANSFORM ;;; ret FINISHED
      else
        report "ERROR" "Please select the mesh object" ;;; ret CANCELLED
  | None =>
      report "ERROR" "Please select the mesh object" ;;; ret CANCELLED
  end.

End ClearBinding.

(** ** create_armature.py: ZENO_OT_CreateHumanRig *)

(** [bpy.ops.object.select_all(action='DESELECT')] *)
Definition select_all_deselect : Op unit :=
  modify_state (fun s => set_objects (map (set_select false) (objects s)) s).

(** [bpy.ops.object.select_by_type(type=...)], without [extend]. *)
Definition select_by_type (ty : string) : Op unit :=
  modify_state (fun s =>
    set_objects (map (fun o => set_select (String.eqb (type o) ty) o) (objects s)) s).

Definition is_live (os : list Object) (r : option ObjRef) : option ObjRef :=
  match r with
  | Some p => if existsb (fun o => Nat.eqb (oid o) p) os then Some p else None
  | None => None
  end.

(** What the host does to a surviving object when others are removed:
    references to removed objects are cleared. *)
Definition unlink (kept : list Object) (o : Object) : Object :=
  set_constraints
    (map (fun c => mkConstraint (ctype c) (is_live kept (target c)) (shrinkwrap_type c))
         (constraints o))
    (set_parent (is_live kept (parent o)) o).

(** [bpy.ops.object.delete()]: removes the selected objects. *)
Definition delete : Op unit :=
  modify_state (fun s =>
    let kept := filter (fun o => negb (select o)) (objects s) in
    set_active (is_live kept (active s))
      (set_objects (map (unlink kept) kept) s)).

Module HumanRig.

(** Module-level [create_bone(armature, name, head, tail, parent_bone=None)]:
    indexes [edit_bones] with the parent's name. *)
Definition create_bone (armature : ObjRef) (n : string) (hd tl : Vector)
    (parent_bone : option string) : Op EditBone :=
  bone <- edit_bones_new armature n ;;
  bone_update armature bone (set_head hd) ;;;
  bone_update armature bone (set_tail tl) ;;;
  (if truthy parent_bone then
     a <- deref armature ;;
     match bone_lookup (match parent_bone with Some p => p | None => "" end)
                       (edit_bones a) with
     | Some pb => bone_update armature bone (set_bparent (Some (bname pb)))
     | None => raise "KeyError"
     end
   else ret tt) ;;;
  bone_get armature bone.

(** [ZENO_OT_CreateHumanRig.create_armature(self, name, location=(0, 0, 0))] *)
Definition create_armature (n : string) (loc : Vector) : Op Object :=
  armature_add true loc ;;;
  a <- context_active_object ;;
  armature <- expect a ;;
  modify (oid armature) (set_name n) ;;;
  mode_set EDIT ;;;
  deref (oid armature).

(** The fifteen [create_bone] calls of [execute]. *)
Definition human_bones : list (string * Vector * Vector * option string) :=
  [ ("spine_base", Vec 0 0 0, Vec 0 0 1, None);
    ("spine_mid", Vec 0 0 1, Vec 0 0 2, Some "spine_base");
    ("spine_top", Vec 0 0 2, Vec 0 0 3, Some "spine_mid");
    ("shoulder.L", Vec 0 0.2 2.5, Vec 0 0.5 2.5, Some "spine_top");
    ("upper_arm.L", Vec 0 0.5 2.5, Vec 0 0.8 2.5, Some "shoulder.L");
    ("lower_arm.L", Vec 0 0.8 2.5, Vec 0 1.1 2.5, Some "upper_arm.L");
    ("shoulder.R", Vec 0 (-0.2) 2.5, Vec 0 (-0.5) 2.5, Some "spine_top");
    ("upper_arm.R", Vec 0 (-0.5) 2.5, Vec 0 (-0.8) 2.5, Some "shoulder.R");
    ("lower_arm.R", Vec 0 (-0.8) 2.5, Vec 0 (-1.1) 2.5, Some "upper_arm.R");
    ("hip.L", Vec 0 0.2 0, Vec 0 0.2 (-1), Some "spine_base");
    ("thigh.L", Vec 0 0.2 (-1), Vec 0 0.2 (-2), Some "hip.L");
    ("shin.L", Vec 0 0.2 (-2), Vec 0 0.2 (-3), Some "thigh.L");
    ("hip.R", Vec 0 (-0.2) 0, Vec 0 (-0.2) (-1), Some "spine_base");
    ("thigh.R", Vec 0 (-0.2) (-1), Vec 0 (-0.2) (-2), Some "hip.R");
    ("shin.R", Vec 0 (-0.2) (-2), Vec 0 (-0.2) (-3), Some "thigh.R") ].

Definition execute : Op Status :=
  (* Clear existing armatures *)
  select_all_deselect ;;;
  select_by_type "ARMATURE" ;;;
  delete ;;;
  (* Create the main armature *)
  armature <- create_armature "Human_Rig" (Vec 0 0 0) ;;
  for_each human_bones (fun '(n, hd, tl, p) =>
    create_bone (oid armature) n hd tl p ;;; ret tt) ;;;
  (* Return to Object Mode *)
  mode_set OBJECT ;;;
  ret FINISHED.

End HumanRig.

(** ** Vocabulary of the statements *)

(** The object that [place_guide] leaves behind for one table entry. *)
Definition guide_object (r : ObjRef) (n : string) (loc : Vector) (size : Q)
    (mesh : ObjRef) (sel : bool) : Object :=
  mkObject r n "MESH" loc (cube_bound_box size) sel None
    [("bendy_joints", IDInt 2); ("stretchable", IDBool false)]
    [mkConstraint "SHRINKWRAP" (Some mesh) "NEAREST_SURFACE"] [].

(** Edge length of a cube-shaped object, read off its bounding box. *)
Definition cube_size (o : Object) : option Q :=
  match bound_box o with
  | lo :: _ :: _ :: _ :: hi :: _ => Some (vx hi - vx lo)
  | _ => None
  end.

Definition max_of (x : Q) (r : list Q) : Q :=
  fold_left (fun m y => if Qle_bool y m then m else y) r x.

Definition min_of (x : Q) (r : list Q) : Q :=
  fold_left (fun m y => if Qle_bool m y then m else y) r x.

(** Height and width of a bounding box with first corner [b]. *)
Definition bbox_height (b : Vector) (bs : list Vector) : Q :=
  max_of (vz b) (map vz bs) - min_of (vz b) (map vz bs).

Definition bbox_width (b : Vector) (bs : list Vector) : Q :=
  max_of (vx b) (map vx bs) - min_of (vx b) (map vx bs).

Definition vsub (u v : Vector) : Vector :=
  Vec (vx u - vx v) (vy u - vy v) (vz u - vz v).

(** A guide's offset from the mesh centre. *)
Definition guide_offsets (height width : Q) (center : Vector) : list (string * Vector) :=
  map (fun e => (fst e, vsub (snd e) center)) (CreateGuides.guides_data height width center).

Definition side (p : string) (l : list (string * Vector)) : list (string * Vector) :=
  filter (fun e => String.prefix p (fst e)) l.

(** The objects an operator has added to [bpy.data.objects]. *)
Definition added (s s' : Blender) : list Object :=
  skipn (List.length (objects s)) (objects s').

Definition lookup_name (n : string) (os : list Object) : option Object :=
  find (fun o => String.eqb (name o) n) os.

(** The state after [place_guide] has run for one table entry. *)
Definition placed (mesh : ObjRef) (s : Blender) (e : string * Vector) : Blender :=
  set_active (Some (fresh_oid (objects s)))
    (set_objects
       (map (set_select false) (objects s) ++
        [guide_object (fresh_oid (objects s)) (fst e) (snd e)
           AutoRiggerTool.create_guide_default_size mesh true]) s).

(** [o] is the guide made for table entry [e], snapped to [mesh]. *)
Definition is_guide (mesh : ObjRef) (e : string * Vector) (o : Object) : Prop :=
  exists r sel,
    o = guide_object r (fst e) (snd e) AutoRiggerTool.create_guide_default_size mesh sel.


(** *** Sample scenes *)

(** A mesh whose bounding box is 2 wide (x), 2 deep (y) and 3 high (z), with
    its origin at the world origin. *)
Definition body_mesh : Object :=
  mkObject 1%nat "Body" "MESH" (Vec 0 0 0)
    [ Vec (-1) (-1) 0; Vec (-1) (-1) 3; Vec (-1) 1 3; Vec (-1) 1 0;
      Vec 1 (-1) 0;    Vec 1 (-1) 3;    Vec 1 1 3;    Vec 1 1 0 ]
    true None [] [] [].

Definition body_scene : Blender :=
  mkBlender [body_mesh] (Some 1%nat) OBJECT default_props [].



(** A camera is active, next to the mesh. *)
Definition camera : Object :=
  mkObject 2%nat "Camera" "CAMERA" (Vec 0 (-5) 1) [] true None [] [] [].

Definition camera_scene : Blender :=
  mkBlender [body_mesh; camera] (Some 2%nat) OBJECT default_props [].

(** The mesh scene with the panel's guide size turned up to 0.5. *)
Definition half_size_props : AutoRiggerProperties :=
  mkProps 0.5 0 true DOTS true true true false false.

Definition half_size_scene : Blender := set_props half_size_props body_scene.

(** *** Bone chains *)

(** The state in which the armature [arm] holds the edit bones [bs]. *)
Definition with_bones (arm : ObjRef) (bs : list EditBone) (s : Blender) : Blender :=
  set_objects (update_object arm (set_edit_bones bs) (objects s)) s.

(** The edit bones currently held by [arm]. *)
Definition current_bones (arm : ObjRef) (s : Blender) : list EditBone :=
  match find_object arm (objects s) with
  | Some a => edit_bones a
  | None => []
  end.

(** The state after the bones [new] have been added to [arm]. *)
Definition grow_bones (arm : ObjRef) (new : list EditBone) (s : Blender) : Blender :=
  match new with
  | [] => s
  | _ :: _ => with_bones arm (current_bones arm s ++ new) s
  end.

(** Where the object called [n] is, if there is one. *)
Definition guide_location (s : Blender) (n : string) : option Vector :=
  option_map location (lookup_name n (objects s)).

(** The parent a bone ends up with when [create_bone] is handed [prev], the
    name of a bone of the armature. *)
Definition parent_given (prev : option string) : option string :=
  if truthy prev then prev else None.

(** The bones [create_bone_chain] makes, as a function of where the guides
    are ([None] for a guide that is missing); [prev] names the bone made last. *)
Fixpoint chain_pure (prev : option string) (glocs : list (option Vector))
    (bone_names : list string) : list EditBone :=
  match glocs, bone_names with
  | None :: gl, _ :: bs => chain_pure prev gl bs
  | Some l :: gl, b :: bs =>
      let tl := match gl with
                | Some l' :: _ => l'
                | _ => l +v GenerateRig.tail_offset
                end in
      mkBone b l tl (parent_given prev) :: chain_pure (Some b) gl bs
  | _, _ => []
  end.

(** Scenes for the bone chains: the mesh, guides of the spine chain, and (for
    the scenes that already hold it) an armature fresh from the host. *)
Definition marker (r : ObjRef) (n : string) (loc : Vector) : Object :=
  guide_object r n loc AutoRiggerTool.create_guide_default_size 1%nat false.

Definition spine_guides : list Object :=
  [ marker 2 "C_Root_Guide" (Vec 0 0 0);
    marker 3 "C_Spine_01_Guide" (Vec 0 0 0.6);
    marker 4 "C_Spine_02_Guide" (Vec 0 0 1.2);
    marker 5 "C_Spine_03_Guide" (Vec 0 0 1.8) ].

(** The spine guides without [C_Spine_01_Guide]. *)
Definition gap_guides : list Object :=
  [ marker 2 "C_Root_Guide" (Vec 0 0 0);
    marker 4 "C_Spine_02_Guide" (Vec 0 0 1.2);
    marker 5 "C_Spine_03_Guide" (Vec 0 0 1.8) ].

Definition empty_rig : Object :=
  mkObject 9 "AutoRig" "ARMATURE" vzero [] true None [] [] [host_default_bone].

Definition spine_scene : Blender :=
  mkBlender (body_mesh :: spine_guides ++ [empty_rig]) (Some 9%nat) EDIT default_props [].

Definition gap_scene : Blender :=
  mkBlender (body_mesh :: gap_guides ++ [empty_rig]) (Some 9%nat) EDIT default_props [].

(** The gap scene before any armature exists. *)
Definition gap_guides_scene : Blender :=
  mkBlender (body_mesh :: gap_guides) (Some 1%nat) OBJECT default_props [].

Definition spine_guide_names : list string :=
  ["C_Root_Guide"; "C_Spine_01_Guide"; "C_Spine_02_Guide"; "C_Spine_03_Guide"].

Definition spine_bone_names : list string :=
  ["C_Root_Bone"; "C_Spine_01_Bone"; "C_Spine_02_Bone"; "C_Spine_03_Bone"].

(** A mesh bound to a rig: the rig stands at (1,2,3), the mesh is its child,
    selected and active, half a unit above the rig's origin. *)
Definition standing_rig : Object :=
  mkObject 1 "AutoRig" "ARMATURE" (Vec 1 2 3) [] false None [] [] [host_default_bone].

Definition bound_mesh : Object :=
  mkObject 2 "Body" "MESH" (Vec 0 0 0.5) [] true (Some 1%nat) [] [] [].

Definition bound_scene : Blender :=
  mkBlender [standing_rig; bound_mesh] (Some 2%nat) OBJECT default_props [].

(** The same two objects, the mesh still active but no longer selected. *)
Definition unselected_bound_scene : Blender :=
  mkBlender [standing_rig; set_select false bound_mesh] (Some 2%nat) OBJECT
    default_props [].

(** *** The human rig *)


(** The bone the module-level [create_bone] adds to the edit bones [ebs], or
    [None] when indexing by the parent's name raises. *)
Definition human_bone (ebs : list EditBone)
    (spec : string * Vector * Vector * option string) : option EditBone :=
  let '(n, hd, tl, p) := spec in
  if truthy p then
    option_map (fun pb => mkBone n hd tl (Some (bname pb)))
      (bone_lookup (match p with Some x => x | None => "" end)
                   (ebs ++ [mkBone n hd tl None]))
  else Some (mkBone n hd tl None).



(** A scene with an old "AutoRig", a mesh bound to it and a camera. *)
Definition rigged_scene : Blender :=
  mkBlender [standing_rig; bound_mesh; camera] (Some 2%nat) OBJECT default_props [].

(** ** auto_rigger.py: AUTORIGGER_OT_bind_mesh *)

(** [obj.select_set(state)] *)
Definition select_set (r : ObjRef) (state : bool) : Op unit :=
  modify r (set_select state).

(** [context.view_layer.objects.active = obj] *)
Definition set_active_object (r : ObjRef) : Op unit :=
  modify_state (set_active (Some r)).

(** [anc] is [o] itself or one of the objects above it. *)
Fixpoint is_ancestor (fuel : nat) (os : list Object) (anc : ObjRef) (o : Object) : bool :=
  Nat.eqb (oid o) anc
  || match fuel, parent o with
     | S f, Some p =>
         match find_object p os with
         | Some po => is_ancestor f os anc po
         | None => false
         end
     | _, _ => false
     end.

(** [bpy.ops.object.parent_set(type='ARMATURE_AUTO')]: every selected object
    other than the active one becomes a child of the active object and stays
    where it is in the world; the operator fails when that would close a loop
    of parents, and needs an active object.  The host keeps the child in place
    through its parent-inverse matrix; with positions as translations this is
    the child's location re-expressed relative to the parent.  Modifiers and
    vertex weights, which the host computes, are not part of the state. *)
Definition parent_set_armature_auto : Op unit :=
  fun s =>
    match active_object s with
    | None => Raise "RuntimeError"
    | Some par =>
        let os := objects s in
        let child o := select o && negb (Nat.eqb (oid o) (oid par)) in
        if existsb (fun o => child o && is_ancestor (List.length os) os (oid o) par) os
        then Raise "RuntimeError"
        else Ok (tt, set_objects
                       (map (fun o =>
                               if child o then
                                 set_parent (Some (oid par))
                                   (set_location
                                      (vsub (matrix_world os o) (matrix_world os par)) o)
                               else o) os) s)
    end.

Module BindMesh.

(** The loop over [bpy.data.objects], with the two locals it assigns. *)
Fixpoint scan (os : list Object) (mesh_obj armature_obj : option Object)
  : option Object * option Object :=
  match os with
  | [] => (mesh_obj, armature_obj)
  | obj :: r =>
      if String.eqb (type obj) "MESH" && select obj then
        scan r (Some obj) armature_obj
      else if String.eqb (type obj) "ARMATURE" && String.eqb (name obj) "AutoRig" then
        scan r mesh_obj (Some obj)
      else scan r mesh_obj armature_obj
  end.

Definition execute : Op Status :=
  os <- gets objects ;;
  match scan os None None with
  | (Some mesh_obj, Some armature_obj) =>
      (* Bind mesh to armature *)
      select_all_deselect ;;;
      select_set (oid mesh_obj) true ;;;
      select_set (oid armature_obj) true ;;;
      set_active_object (oid armature_obj) ;;;
      parent_set_armature_auto ;;;
      ret FINISHED
  | _ =>
      report "ERROR" "Please select the mesh and ensure the rig exists" ;;;
      ret CANCELLED
  end.

End BindMesh.

(** *** Vocabulary for bind-mesh *)

Definition is_selected_mesh (o : Object) : bool :=
  String.eqb (type o) "MESH" && select o.

Definition is_auto_rig (o : Object) : bool :=
  String.eqb (type o) "ARMATURE" && String.eqb (name o) "AutoRig".

(** The last object of the list that satisfies [p]. *)
Definition last_such (p : Object -> bool) (os : list Object) : option Object :=
  find p (rev os).







(** *** Vocabulary for the whole operators *)




(** A guide location that was found. *)
Definition is_present (g : option Vector) : bool :=
  match g with Some _ => true | None => false end.



(** * Properties *)

(** ** References and the monad *)

Lemma bind_ok {A B} (m : Op A) (k : A -> Op B) s a s' :
  m s = Ok (a, s') -> bind m k s = k a s'.
Proof. intros H. unfold bind. now rewrite H. Qed.

Lemma bind_raise {A B} (m : Op A) (k : A -> Op B) s e :
  m s = Raise e -> bind m k s = Raise e.
Proof. intros H. unfold bind. now rewrite H. Qed.

Lemma bind_bind {A B C} (m : Op A) (f : A -> Op B) (g : B -> Op C) s :
  bind (bind m f) g s = bind m (fun x => bind (f x) g) s.
Proof. unfold bind. destruct (m s) as [[a s']|e]; reflexivity. Qed.

Lemma fresh_oid_lt os o : In o os -> (oid o < fresh_oid os)%nat.
Proof.
  intros H. unfold fresh_oid.
  assert (Hle : (oid o <= list_max (map oid os))%nat).
  { induction os as [|x r IH]; [contradiction|].
    simpl. destruct H as [->|H]; [lia|]. specialize (IH H). lia. }
  lia.
Qed.


Lemma find_object_none r os :
  (forall o, In o os -> oid o <> r) -> find_object r os = None.
Proof.
  intros H. unfold find_object. induction os as [|x t IH]; [reflexivity|].
  simpl. destruct (Nat.eqb_spec (oid x) r) as [E|_].
  - exfalso. apply (H x); [now left|exact E].
  - apply IH. intros o Ho. apply H. now right.
Qed.

Lemma find_object_app r os os' :
  find_object r (os ++ os') =
  match find_object r os with Some o => Some o | None => find_object r os' end.
Proof.
  unfold find_object. induction os as [|x t IH]; [reflexivity|].
  simpl. destruct (Nat.eqb (oid x) r); [reflexivity|exact IH].
Qed.


Lemma find_object_In r os o : find_object r os = Some o -> In o os.
Proof. unfold find_object. intros H. now apply find_some in H. Qed.

Lemma find_object_update r f os :
  (forall o, oid (f o) = oid o) ->
  find_object r (update_object r f os) = option_map f (find_object r os).
Proof.
  intros Hf. unfold find_object, update_object.
  induction os as [|x t IH]; [reflexivity|].
  simpl. destruct (Nat.eqb (oid x) r) eqn:E.
  - rewrite Hf, E. reflexivity.
  - rewrite E. exact IH.
Qed.

Lemma update_object_none r f os :
  (forall o, In o os -> oid o <> r) -> update_object r f os = os.
Proof.
  intros H. unfold update_object. induction os as [|x t IH]; [reflexivity|].
  simpl. destruct (Nat.eqb_spec (oid x) r) as [E|_].
  - exfalso. apply (H x); [now left|exact E].
  - f_equal. apply IH. intros o Ho. apply H. now right.
Qed.

Lemma update_object_app r f os os' :
  update_object r f (os ++ os') = update_object r f os ++ update_object r f os'.
Proof. unfold update_object. apply map_app. Qed.

Lemma update_object_twice r f g os :
  (forall o, oid (f o) = oid o) ->
  update_object r g (update_object r f os) = update_object r (fun o => g (f o)) os.
Proof.
  intros Hf. unfold update_object. rewrite map_map. apply map_ext.
  intros o. destruct (Nat.eqb (oid o) r) eqn:E.
  - now rewrite Hf, E.
  - now rewrite E.
Qed.

Lemma deref_ok r s o : find_object r (objects s) = Some o -> deref r s = Ok (o, s).
Proof. intros H. unfold deref. now rewrite H. Qed.

Lemma modify_ok r f s o :
  find_object r (objects s) = Some o ->
  modify r f s = Ok (tt, set_objects (update_object r f (objects s)) s).
Proof. intros H. unfold modify. now rewrite H. Qed.

Lemma fresh_not_in_deselected os o :
  In o (map (set_select false) os) -> oid o <> fresh_oid os.
Proof.
  intros H. apply in_map_iff in H. destruct H as [x [<- Hx]].
  simpl. apply fresh_oid_lt in Hx. lia.
Qed.

Lemma find_object_linked os x :
  oid x = fresh_oid os ->
  find_object (fresh_oid os) (map (set_select false) os ++ [x]) = Some x.
Proof.
  intros Hx. rewrite find_object_app, find_object_none.
  - unfold find_object. simpl. rewrite Hx, Nat.eqb_refl. reflexivity.
  - apply fresh_not_in_deselected.
Qed.

Lemma update_object_linked os x f :
  oid x = fresh_oid os ->
  update_object (fresh_oid os) f (map (set_select false) os ++ [x])
  = map (set_select false) os ++ [f x].
Proof.
  intros Hx. rewrite update_object_app, update_object_none.
  - unfold update_object. simpl. rewrite Hx, Nat.eqb_refl. reflexivity.
  - apply fresh_not_in_deselected.
Qed.

Arguments find_object : simpl never.
Arguments update_object : simpl never.
Arguments fresh_oid : simpl never.

(** ** create_guide and the guide loop *)

Lemma modify_linked os x f s1 :
  objects s1 = map (set_select false) os ++ [x] ->
  oid x = fresh_oid os ->
  modify (fresh_oid os) f s1
  = Ok (tt, set_objects (map (set_select false) os ++ [f x]) s1).
Proof.
  intros Ho Hx. unfold modify. rewrite Ho, find_object_linked by exact Hx.
  now rewrite update_object_linked by exact Hx.
Qed.

Lemma deref_linked os x s1 :
  objects s1 = map (set_select false) os ++ [x] ->
  oid x = fresh_oid os ->
  deref (fresh_oid os) s1 = Ok (x, s1).
Proof.
  intros Ho Hx. unfold deref. now rewrite Ho, find_object_linked by exact Hx.
Qed.

Lemma active_linked mk s :
  (forall r, oid (mk r) = r) ->
  context_active_object (linked mk s)
  = Ok (Some (mk (fresh_oid (objects s))), linked mk s).
Proof.
  intros Hmk. unfold context_active_object, gets, active_object, linked. cbn.
  now rewrite Hmk, find_object_linked by apply Hmk.
Qed.

Ltac run_linked :=
  first
    [ erewrite bind_ok by (eapply modify_linked; reflexivity)
    | erewrite bind_ok by (eapply deref_linked; reflexivity)
    | erewrite deref_linked by reflexivity ].

Lemma create_guide_run n loc size s :
  AutoRiggerTool.create_guide n loc size s =
  let g := mkObject (fresh_oid (objects s)) n "MESH" loc (cube_bound_box size) true None
             [("bendy_joints", IDInt 2); ("stretchable", IDBool false)] [] [] in
  Ok (g, set_active (Some (fresh_oid (objects s)))
           (set_objects (map (set_select false) (objects s) ++ [g]) s)).
Proof.
  unfold AutoRiggerTool.create_guide, primitive_cube_add, link_new.
  erewrite bind_ok by reflexivity.
  erewrite bind_ok by (apply active_linked; reflexivity).
  erewrite bind_ok by reflexivity.
  cbn [oid new_object].
  do 3 run_linked. run_linked.
  reflexivity.
Qed.

Lemma place_guide_run mesh_obj n loc s :
  CreateGuides.place_guide mesh_obj (n, loc) s =
  Ok (tt, set_active (Some (fresh_oid (objects s)))
            (set_objects
               (map (set_select false) (objects s) ++
                [guide_object (fresh_oid (objects s)) n loc
                   AutoRiggerTool.create_guide_default_size (oid mesh_obj) true]) s)).
Proof.
  unfold CreateGuides.place_guide.
  erewrite bind_ok by apply create_guide_run.
  cbn [oid].
  unfold constraints_new, constraint_set_target, constraint_set_shrinkwrap_type.
  rewrite bind_bind. run_linked. rewrite bind_bind. run_linked.
  erewrite bind_ok by reflexivity.
  run_linked.
  erewrite modify_linked by reflexivity.
  reflexivity.
Qed.

Lemma for_each_place mesh_obj data s :
  for_each data (CreateGuides.place_guide mesh_obj) s
  = Ok (tt, fold_left (placed (oid mesh_obj)) data s).
Proof.
  revert s. induction data as [|[n loc] r IH]; intros s; [reflexivity|].
  cbn [for_each fold_left].
  erewrite bind_ok by apply place_guide_run.
  apply IH.
Qed.

Lemma deselect_twice os :
  map (set_select false) (map (set_select false) os) = map (set_select false) os.
Proof. rewrite map_map. now apply map_ext. Qed.

Lemma placed_all mesh data s :
  exists news,
    objects (fold_left (placed mesh) data s)
    = match data with
      | [] => objects s
      | _ :: _ => map (set_select false) (objects s)
      end ++ news
    /\ Forall2 (is_guide mesh) data news
    /\ mode (fold_left (placed mesh) data s) = mode s
    /\ auto_rigger_props (fold_left (placed mesh) data s) = auto_rigger_props s
    /\ reports (fold_left (placed mesh) data s) = reports s.
Proof.
  revert s. induction data as [|e r IH]; intros s.
  - exists []. cbn. rewrite app_nil_r. repeat split. constructor.
  - cbn [fold_left].
    destruct (IH (placed mesh s e)) as [news [Ho [Hg [Hm [Hp Hr]]]]].
    rewrite Hm, Hp, Hr. cbn [placed objects set_active set_objects] in Ho.
    destruct r as [|e' r'].
    + inversion Hg; subst.
      eexists. split; [rewrite Ho, app_nil_r; reflexivity|].
      split; [|now cbn]. constructor; [|constructor].
      eexists _, _. reflexivity.
    + rewrite map_app, deselect_twice, <- app_assoc in Ho. cbn [map app] in Ho.
      eexists. split; [exact Ho|]. split; [|now cbn].
      constructor; [|exact Hg].
      eexists _, _. reflexivity.
Qed.

Lemma py_max_run x r s : py_max (x :: r) s = Ok (max_of x r, s).
Proof. reflexivity. Qed.

Lemma py_min_run x r s : py_min (x :: r) s = Ok (min_of x r, s).
Proof. reflexivity. Qed.

(** On an active mesh the operator runs to completion: it returns FINISHED,
    deselects what was there and appends one guide per table entry, placed
    from the height and width of the mesh's bounding box. *)
Lemma create_guides_finished s mesh_obj b bs :
  active_object s = Some mesh_obj ->
  type mesh_obj = "MESH" ->
  bound_box mesh_obj = b :: bs ->
  exists s' news,
    CreateGuides.execute s = Ok (FINISHED, s')
    /\ objects s' = map (set_select false) (objects s) ++ news
    /\ Forall2 (is_guide (oid mesh_obj))
         (CreateGuides.guides_data (bbox_height b bs) (bbox_width b bs)
            (location mesh_obj)) news
    /\ reports s' = reports s.
Proof.
  intros Ha Ht Hb.
  destruct (placed_all (oid mesh_obj)
              (CreateGuides.guides_data (bbox_height b bs) (bbox_width b bs)
                 (location mesh_obj)) s) as [news [Ho [Hg [_ [_ Hr]]]]].
  eexists _, news. split; [|split; [exact Ho|split; [exact Hg|exact Hr]]].
  unfold CreateGuides.execute.
  erewrite bind_ok by (unfold context_active_object, gets; rewrite Ha; reflexivity).
  cbv beta iota. rewrite Ht, Hb.
  change (negb (String.eqb "MESH" "MESH")) with false. cbv beta iota zeta.
  cbn [map].
  erewrite bind_ok by apply py_max_run.
  erewrite bind_ok by apply py_min_run.
  erewrite bind_ok by apply py_max_run.
  erewrite bind_ok by apply py_min_run.
  erewrite bind_ok by apply for_each_place.
  reflexivity.
Qed.

Lemma Forall2_In_r {A B} (R : A -> B -> Prop) l l' y :
  Forall2 R l l' -> In y l' -> exists x, In x l /\ R x y.
Proof.
  induction 1 as [|a b l l' Hab _ IH]; intros Hy; [contradiction|].
  destruct Hy as [<-|Hy].
  - exists a. split; [now left|exact Hab].
  - destruct (IH Hy) as [x [Hx Hr]]. exists x. split; [now right|exact Hr].
Qed.


Lemma added_app (s s' : Blender) (f : Object -> Object) news :
  objects s' = map f (objects s) ++ news -> added s s' = news.
Proof.
  intros H. unfold added. rewrite H.
  rewrite skipn_app, length_map, Nat.sub_diag.
  rewrite skipn_all2 by (rewrite length_map; lia). reflexivity.
Qed.

(** The guides the operator adds, entry by entry of its table. *)
Lemma create_guides_added s mesh_obj b bs :
  active_object s = Some mesh_obj ->
  type mesh_obj = "MESH" ->
  bound_box mesh_obj = b :: bs ->
  exists s',
    CreateGuides.execute s = Ok (FINISHED, s')
    /\ objects s' = map (set_select false) (objects s) ++ added s s'
    /\ Forall2 (is_guide (oid mesh_obj))
         (CreateGuides.guides_data (bbox_height b bs) (bbox_width b bs)
            (location mesh_obj)) (added s s')
    /\ reports s' = reports s.
Proof.
  intros Ha Ht Hb.
  destruct (create_guides_finished s mesh_obj b bs Ha Ht Hb)
    as [s' [news [He [Ho [Hg Hr]]]]].
  exists s'. rewrite (added_app s s' _ news Ho). auto.
Qed.

Lemma added_guide_entry mesh data news o :
  Forall2 (is_guide mesh) data news -> In o news ->
  exists e, In e data /\ name o = fst e /\ location o = snd e
            /\ type o = "MESH"
            /\ bound_box o = cube_bound_box AutoRiggerTool.create_guide_default_size.
Proof.
  intros Hg Ho. destruct (Forall2_In_r _ _ _ _ Hg Ho) as [e [He [r [sel ->]]]].
  exists e. cbn. auto.
Qed.


(** ** C9: create-guides without an active mesh *)

(** C9.  When there is no active object, or the active object is not a mesh,
    the create-guides operator reports the error "Please select a mesh object"
    and returns CANCELLED; nothing else in the host state changes, so no guide
    object is created. *)
Theorem create_guides_cancelled_without_mesh (s : Blender) :
  (active_object s = None
   \/ exists o, active_object s = Some o /\ type o <> "MESH") ->
  exists s',
    CreateGuides.execute s = Ok (CANCELLED, s')
    /\ reports s' = reports s ++ [("ERROR", "Please select a mesh object")]
    /\ objects s' = objects s
    /\ active s' = active s
    /\ mode s' = mode s
    /\ added s s' = [].
Proof.
  intros H.
  exists (add_report "ERROR" "Please select a mesh object" s).
  split.
  - unfold CreateGuides.execute.
    destruct H as [Hn | [o [Ho Ht]]].
    + erewrite bind_ok
        by (unfold context_active_object, gets; rewrite Hn; reflexivity).
      reflexivity.
    + erewrite bind_ok
        by (unfold context_active_object, gets; rewrite Ho; reflexivity).
      cbv beta iota.
      destruct (String.eqb_spec (type o) "MESH") as [E|_]; [contradiction|].
      reflexivity.
  - repeat split. unfold added. cbn. apply skipn_all.
Qed.

Lemma create_guides_cancelled_without_mesh_witness :
  exists s',
    CreateGuides.execute camera_scene = Ok (CANCELLED, s')
    /\ reports s' = [("ERROR", "Please select a mesh object")]
    /\ objects s' = objects camera_scene
    /\ active s' = active camera_scene
    /\ mode s' = mode camera_scene
    /\ added camera_scene s' = [].
Proof.
  apply (create_guides_cancelled_without_mesh camera_scene).
  right. exists camera. split; [reflexivity|discriminate].
Defined.

(** ** C4: the guide size used by create-guides *)

(** C4.  Whatever property group the scene carries, and so whatever its
    [guide_size], the create-guides operator on an active mesh adds twenty
    guides that are all cubes of the default size of [create_guide] (0.1):
    [guide_size] is not read. *)
Theorem create_guides_ignores_guide_size
    (s : Blender) (p : AutoRiggerProperties) (mesh_obj : Object) b bs :
  active_object s = Some mesh_obj ->
  type mesh_obj = "MESH" ->
  bound_box mesh_obj = b :: bs ->
  exists s',
    CreateGuides.execute (set_props p s) = Ok (FINISHED, s')
    /\ List.length (added s s') = 20%nat
    /\ Forall (fun o => bound_box o = cube_bound_box AutoRiggerTool.create_guide_default_size
                        /\ exists z, cube_size o = Some z /\ z == 0.1)
         (added s s').
Proof.
  intros Ha Ht Hb.
  destruct (create_guides_added (set_props p s) mesh_obj b bs Ha Ht Hb)
    as [s' [He [_ [Hg _]]]].
  exists s'. split; [exact He|].
  change (added (set_props p s) s') with (added s s') in Hg.
  split.
  - apply Forall2_length in Hg. rewrite <- Hg. reflexivity.
  - apply Forall_forall. intros o Ho.
    destruct (added_guide_entry _ _ _ _ Hg Ho) as [e [_ [_ [_ [_ Hbb]]]]].
    split; [exact Hbb|].
    unfold cube_size. rewrite Hbb. eexists. split; [reflexivity|].
    reflexivity.
Qed.

Lemma create_guides_ignores_guide_size_witness :
  guide_size (auto_rigger_props half_size_scene) == 0.5
  /\ exists s',
       CreateGuides.execute half_size_scene = Ok (FINISHED, s')
       /\ List.length (added body_scene s') = 20%nat
       /\ Forall (fun o => bound_box o
                           = cube_bound_box AutoRiggerTool.create_guide_default_size
                           /\ exists z, cube_size o = Some z /\ z == 0.1)
            (added body_scene s').
Proof.
  split; [reflexivity|].
  apply (create_guides_ignores_guide_size body_scene half_size_props body_mesh
           (Vec (-1) (-1) 0)
           [ Vec (-1) (-1) 3; Vec (-1) 1 3; Vec (-1) 1 0;
             Vec 1 (-1) 0; Vec 1 (-1) 3; Vec 1 1 3; Vec 1 1 0 ]);
    reflexivity.
Defined.

(** ** C5: the scenario with height 3 and width 2 *)

Ltac table_entries H :=
  cbn [CreateGuides.guides_data In] in H;
  repeat (destruct H as [H|H]); [..|contradiction].

Ltac solve_veq :=
  unfold veq; cbn [vadd vsub vscale mirror_x vx vy vz fst snd] in *;
  repeat split; lra.





(** ** C7: scaling and mirroring of the guide offsets *)

(** Every guide location is the mesh centre plus its offset. *)
Lemma guide_offsets_shift h w c :
  Forall2 (fun e off => fst off = fst e /\ snd e =v snd off +v c)
    (CreateGuides.guides_data h w c) (guide_offsets h w c).
Proof.
  unfold guide_offsets. cbn [CreateGuides.guides_data map fst snd].
  repeat constructor; solve_veq.
Qed.

(** C7 (amended).  The x component of every guide offset scales linearly with
    the bounding-box width and the z component with the height, while the y
    component is a constant that does not depend on the mesh; and the offsets
    of the right-side guides are the left-side offsets with the sign of x
    flipped, guide by guide. *)
Theorem guide_offsets_scale_and_mirror (h w kh kw : Q) (c c' : Vector) :
  Forall2 (fun e e' =>
             fst e' = fst e
             /\ vx (snd e') == kw * vx (snd e)
             /\ vz (snd e') == kh * vz (snd e)
             /\ vy (snd e') == vy (snd e))
    (guide_offsets h w c) (guide_offsets (kh * h) (kw * w) c')
  /\ Forall2 (fun l r =>
                (exists part, fst l = String "L"%char part /\ fst r = String "R"%char part)
                /\ snd r =v mirror_x (snd l))
       (side "L_" (guide_offsets h w c)) (side "R_" (guide_offsets h w c)).
Proof.
  destruct c as [cx cy cz], c' as [cx' cy' cz'].
  lazy -[Qmult Qplus Qminus Qopp Qeq Qdiv Qinv Qle Qlt].
  split.
  - repeat constructor; lra.
  - repeat constructor; try (eexists; split; reflexivity); lra.
Qed.

(** C7, as stated, fails for the foot guides: doubling height and width
    (from 1 to 2) does not double the offset of [L_Foot_Guide], whose y
    component stays 0.1. *)
Lemma foot_offset_does_not_scale :
  ~ (forall n off off2,
       In (n, off) (guide_offsets 1 1 vzero) ->
       In (n, off2) (guide_offsets (2 * 1) (2 * 1) vzero) ->
       off2 =v vscale 2 off).
Proof.
  intros H.
  specialize (H "L_Foot_Guide" (vsub (Vec (1 * 0.15) 0.1 0 +v vzero) vzero)
                (vsub (Vec (2 * 1 * 0.15) 0.1 0 +v vzero) vzero)).
  destruct H as [_ [Hy _]].
  - unfold guide_offsets. cbn [CreateGuides.guides_data map In fst snd]. tauto.
  - unfold guide_offsets. cbn [CreateGuides.guides_data map In fst snd]. tauto.
  - vm_compute in Hy. discriminate Hy.
Qed.

(** ** C8: degenerate meshes *)




(** ** Bones of an armature *)

Lemma set_edit_bones_twice f bs os r :
  update_object r (fun o => set_edit_bones (f (edit_bones o)) o)
    (update_object r (set_edit_bones bs) os)
  = update_object r (set_edit_bones (f bs)) os.
Proof. now rewrite update_object_twice. Qed.

Lemma find_with_bones arm bs s a :
  find_object arm (objects s) = Some a ->
  find_object arm (objects (with_bones arm bs s)) = Some (set_edit_bones bs a).
Proof.
  intros H. unfold with_bones. cbn [objects set_objects].
  rewrite find_object_update by reflexivity. now rewrite H.
Qed.

Lemma modify_new_bones arm bs s a :
  find_object arm (objects s) = Some a ->
  modify arm (set_edit_bones bs) s = Ok (tt, with_bones arm bs s).
Proof. intros H. now rewrite (modify_ok _ _ _ _ H). Qed.

Lemma modify_with_bones arm f bs s a :
  find_object arm (objects s) = Some a ->
  modify arm (fun o => set_edit_bones (f (edit_bones o)) o) (with_bones arm bs s)
  = Ok (tt, with_bones arm (f bs) s).
Proof.
  intros H. rewrite (modify_ok _ _ _ _ (find_with_bones _ bs _ _ H)).
  unfold with_bones. cbn [objects set_objects]. now rewrite set_edit_bones_twice.
Qed.

Lemma deref_with_bones arm bs s a :
  find_object arm (objects s) = Some a ->
  deref arm (with_bones arm bs s) = Ok (set_edit_bones bs a, with_bones arm bs s).
Proof. intros H. apply deref_ok. now apply find_with_bones. Qed.

Lemma with_bones_twice arm bs bs' s :
  with_bones arm bs' (with_bones arm bs s) = with_bones arm bs' s.
Proof.
  unfold with_bones. cbn [objects set_objects].
  rewrite update_object_twice by reflexivity. reflexivity.
Qed.

Lemma current_with_bones arm bs s a :
  find_object arm (objects s) = Some a ->
  current_bones arm (with_bones arm bs s) = bs.
Proof. intros H. unfold current_bones. now rewrite (find_with_bones _ _ _ _ H). Qed.

Lemma list_update_last {A} (f : A -> A) l x :
  list_update (List.length l) f (l ++ [x]) = l ++ [f x].
Proof. induction l as [|y r IH]; [reflexivity|]. cbn. now rewrite IH. Qed.

Lemma nth_error_last {A} (l : list A) x :
  nth_error (l ++ [x]) (List.length l) = Some x.
Proof. induction l as [|y r IH]; [reflexivity|exact IH]. Qed.

Ltac run_bones H :=
  first
    [ erewrite bind_ok by (eapply modify_with_bones; exact H)
    | erewrite bind_ok by (eapply deref_with_bones; exact H)
    | erewrite bind_ok by (eapply modify_new_bones; exact H)
    | erewrite bind_ok by (eapply deref_ok; exact H) ].

(** What [create_bone] does to an armature that holds the bones of [a]. *)
Lemma create_bone_run arm n hd tl p s a :
  find_object arm (objects s) = Some a ->
  let has_parent :=
    truthy p && bone_in p (edit_bones a ++ [mkBone n hd tl None]) in
  let bone := mkBone n hd tl (if has_parent then p else None) in
  AutoRiggerTool.create_bone arm n hd tl p s
  = Ok (bone, with_bones arm (edit_bones a ++ [bone]) s).
Proof.
  intros H has_parent bone.
  unfold AutoRiggerTool.create_bone, edit_bones_new, bone_update, bone_get.
  rewrite bind_bind. run_bones H. rewrite bind_bind. run_bones H.
  erewrite bind_ok by reflexivity.
  run_bones H. rewrite list_update_last.
  run_bones H. rewrite list_update_last.
  run_bones H. cbn [edit_bones set_edit_bones].
  change (set_tail tl (set_head hd (mkBone n vzero vzero None)))
    with (mkBone n hd tl None).
  subst bone. fold has_parent. destruct has_parent; cbv iota.
  - run_bones H. rewrite list_update_last.
    run_bones H. cbn [edit_bones set_edit_bones]. rewrite nth_error_last.
    reflexivity.
  - erewrite bind_ok by reflexivity.
    run_bones H. cbn [edit_bones set_edit_bones]. rewrite nth_error_last.
    reflexivity.
Qed.

(** ** The loop of create_bone_chain *)

Lemma lookup_name_update n r f os :
  (forall o, name (f o) = name o) ->
  lookup_name n (update_object r f os)
  = option_map (fun o => if Nat.eqb (oid o) r then f o else o) (lookup_name n os).
Proof.
  intros Hf. unfold lookup_name, update_object.
  induction os as [|x t IH]; [reflexivity|].
  cbn [map find].
  assert (Hn : name (if Nat.eqb (oid x) r then f x else x) = name x)
    by (destruct (Nat.eqb (oid x) r); [apply Hf|reflexivity]).
  rewrite Hn. destruct (String.eqb (name x) n); [reflexivity|exact IH].
Qed.

Lemma guide_location_with_bones arm bs s n :
  guide_location (with_bones arm bs s) n = guide_location s n.
Proof.
  unfold guide_location, with_bones. cbn [objects set_objects].
  rewrite lookup_name_update by reflexivity.
  destruct (lookup_name n (objects s)) as [o|]; [|reflexivity].
  cbn [option_map]. now destruct (Nat.eqb (oid o) arm).
Qed.

Lemma last_bone_snoc l x : GenerateRig.last_bone (l ++ [x]) = Some x.
Proof.
  unfold GenerateRig.last_bone. destruct l as [|y r]; [reflexivity|].
  cbn [app]. f_equal. apply last_last.
Qed.

Lemma bone_in_snoc p bs b :
  bone_in (Some p) bs = true -> bone_in (Some p) (bs ++ [b]) = true.
Proof.
  unfold bone_in. intros H. rewrite existsb_app, H. reflexivity.
Qed.

Lemma bone_in_last bs b : bone_in (Some (bname b)) (bs ++ [b]) = true.
Proof.
  unfold bone_in. rewrite existsb_app. cbn [existsb].
  rewrite String.eqb_refl. now rewrite orb_true_r.
Qed.

Lemma grow_bones_step arm bone new s a :
  find_object arm (objects s) = Some a ->
  grow_bones arm new (with_bones arm (edit_bones a ++ [bone]) s)
  = grow_bones arm (bone :: new) s.
Proof.
  intros H. unfold grow_bones at 2. unfold current_bones at 1. rewrite H.
  destruct new as [|x r]; [reflexivity|].
  unfold grow_bones. rewrite (current_with_bones _ _ _ _ H), with_bones_twice.
  now rewrite <- app_assoc.
Qed.

Lemma get_guide_run n s :
  GenerateRig.get_guide_by_name n s = Ok (lookup_name n (objects s), s).
Proof. reflexivity. Qed.

(** The loop computes [chain_pure] of the guide locations, appends it to the
    bones made so far and to the armature. *)
Lemma chain_loop_run arm gsuf :
  forall bsuf gpre created s a,
    find_object arm (objects s) = Some a ->
    (forall b, GenerateRig.last_bone created = Some b ->
               bone_in (Some (bname b)) (edit_bones a) = true) ->
    GenerateRig.chain_loop arm (gpre ++ gsuf)
      (GenerateRig.enumerate_from (List.length gpre) (combine gsuf bsuf)) created s
    = Ok (created ++ chain_pure (option_map bname (GenerateRig.last_bone created))
                       (map (guide_location s) gsuf) bsuf,
          grow_bones arm
            (chain_pure (option_map bname (GenerateRig.last_bone created))
               (map (guide_location s) gsuf) bsuf) s).
Proof.
  induction gsuf as [|g gs IH]; intros bsuf gpre created s a Ha Hinv.
  - cbn. now rewrite app_nil_r.
  - destruct bsuf as [|b bs].
    + cbn [combine GenerateRig.enumerate_from GenerateRig.chain_loop map chain_pure].
      destruct (guide_location s g); cbn [grow_bones]; now rewrite app_nil_r.
    + cbn [combine GenerateRig.enumerate_from GenerateRig.chain_loop map].
      erewrite bind_ok by apply get_guide_run.
      cbv beta. unfold guide_location at 1 3.
      assert (Hpre : gpre ++ g :: gs = (gpre ++ [g]) ++ gs)
        by (now rewrite <- app_assoc).
      assert (Hlen : S (List.length gpre) = List.length (gpre ++ [g]))
        by (rewrite length_app; cbn; lia).
      destruct (lookup_name g (objects s)) as [guide|] eqn:Hg.
      * cbn [option_map chain_pure].
        set (hd := location guide).
        set (tl := match map (guide_location s) gs with
                   | Some l' :: _ => l'
                   | _ => hd +v GenerateRig.tail_offset
                   end).
        set (prev := option_map bname (GenerateRig.last_bone created)).
        assert (Htl :
          (if (List.length gpre <? List.length (gpre ++ g :: gs) - 1)%nat
           then next_guide <- GenerateRig.get_guide_by_name
                                (nth (List.length gpre + 1) (gpre ++ g :: gs) "") ;;
                ret (match next_guide with
                     | Some ng => location ng
                     | None => hd +v GenerateRig.tail_offset
                     end)
           else ret (hd +v GenerateRig.tail_offset)) s = Ok (tl, s)).
        { subst tl. destruct gs as [|g' gs'].
          - replace (List.length (gpre ++ [g]) - 1)%nat with (List.length gpre)
              by (rewrite length_app; cbn; lia).
            now rewrite Nat.ltb_irrefl.
          - replace (List.length gpre <? List.length (gpre ++ g :: g' :: gs') - 1)%nat
              with true
              by (symmetry; apply Nat.ltb_lt; rewrite length_app; cbn; lia).
            replace (nth (List.length gpre + 1) (gpre ++ g :: g' :: gs') "") with g'
              by (rewrite app_nth2 by lia;
                  replace (List.length gpre + 1 - List.length gpre)%nat with 1%nat by lia;
                  reflexivity).
            erewrite bind_ok by apply get_guide_run.
            cbn [map]. unfold guide_location at 1, ret.
            now destruct (lookup_name g' (objects s)). }
        erewrite bind_ok by exact Htl.
        erewrite bind_ok by (apply create_bone_run; exact Ha).
        assert (Hpar :
          (if truthy prev && bone_in prev (edit_bones a ++ [mkBone b hd tl None])
           then prev else None) = parent_given prev).
        { unfold parent_given. subst prev.
          destruct (GenerateRig.last_bone created) as [lb|] eqn:Hl; [|reflexivity].
          cbn [option_map]. rewrite (bone_in_snoc _ _ _ (Hinv lb eq_refl)).
          now rewrite andb_true_r. }
        rewrite Hpar.
        set (bone := mkBone b hd tl (parent_given prev)).
        rewrite Hpre, Hlen.
        rewrite (IH bs (gpre ++ [g]) (created ++ [bone])
                   (with_bones arm (edit_bones a ++ [bone]) s)
                   (set_edit_bones (edit_bones a ++ [bone]) a)).
        -- rewrite last_bone_snoc. cbn [option_map bname bone].
           rewrite (map_ext (guide_location (with_bones arm (edit_bones a ++ [bone]) s))
                      (guide_location s))
             by (intros; apply guide_location_with_bones).
           rewrite <- app_assoc. cbn [app].
           now rewrite (grow_bones_step _ _ _ _ _ Ha).
        -- now apply find_with_bones.
        -- intros lb Hl. rewrite last_bone_snoc in Hl. injection Hl as <-.
           cbn [edit_bones set_edit_bones]. apply bone_in_last.
      * cbn [option_map chain_pure].
        rewrite Hpre, Hlen. apply (IH bs (gpre ++ [g]) created s a Ha Hinv).
Qed.

Lemma create_bone_chain_run arm guide_names bone_names s a :
  find_object arm (objects s) = Some a ->
  GenerateRig.create_bone_chain arm guide_names bone_names s
  = Ok (chain_pure None (map (guide_location s) guide_names) bone_names,
        grow_bones arm
          (chain_pure None (map (guide_location s) guide_names) bone_names) s).
Proof.
  intros Ha. unfold GenerateRig.create_bone_chain, GenerateRig.enumerate.
  apply (chain_loop_run arm guide_names bone_names [] [] s a Ha).
  intros b Hb. discriminate Hb.
Qed.

Lemma current_grow_bones arm new s a :
  find_object arm (objects s) = Some a ->
  current_bones arm (grow_bones arm new s) = edit_bones a ++ new.
Proof.
  intros Ha. destruct new as [|b r]; cbn [grow_bones].
  - unfold current_bones. now rewrite Ha, app_nil_r.
  - rewrite (current_with_bones _ _ _ _ Ha). unfold current_bones. now rewrite Ha.
Qed.

(** ** The bones of a chain whose guides are all present *)

Lemma parent_given_name b : b <> "" -> parent_given (Some b) = Some b.
Proof.
  intros Hb. unfold parent_given, truthy.
  destruct (String.eqb_spec b ""); [contradiction|reflexivity].
Qed.

Lemma chain_pure_present_length prev locs bone_names :
  List.length bone_names = List.length locs ->
  List.length (chain_pure prev (map Some locs) bone_names) = List.length locs.
Proof.
  revert prev bone_names. induction locs as [|l ls IH]; intros prev bns Hlen.
  - reflexivity.
  - destruct bns as [|b bs]; [discriminate Hlen|].
    cbn [map chain_pure List.length]. f_equal. apply IH. now injection Hlen.
Qed.

Lemma chain_pure_present_names prev locs bone_names :
  List.length bone_names = List.length locs ->
  map bname (chain_pure prev (map Some locs) bone_names) = bone_names.
Proof.
  revert prev bone_names. induction locs as [|l ls IH]; intros prev bns Hlen.
  - now destruct bns.
  - destruct bns as [|b bs]; [discriminate Hlen|].
    cbn [map chain_pure bname]. f_equal. apply IH. now injection Hlen.
Qed.

(** Bone [i] of such a chain: its name, head, tail and parent. *)
Lemma chain_pure_present_nth locs :
  forall prev bone_names i bone,
    List.length bone_names = List.length locs ->
    Forall (fun b => b <> "") bone_names ->
    nth_error (chain_pure prev (map Some locs) bone_names) i = Some bone ->
    nth_error bone_names i = Some (bname bone)
    /\ nth_error locs i = Some (head bone)
    /\ tail bone = nth (S i) locs (head bone +v GenerateRig.tail_offset)
    /\ bparent bone = match i with
                      | O => parent_given prev
                      | S j => nth_error bone_names j
                      end.
Proof.
  induction locs as [|l ls IH]; intros prev bns i bone Hlen Hne Hi.
  - destruct i; discriminate Hi.
  - destruct bns as [|b bs]; [discriminate Hlen|].
    injection Hlen as Hlen. inversion Hne as [|? ? Hb Hbs]; subst.
    cbn [map chain_pure] in Hi.
    destruct i as [|i].
    + injection Hi as <-. cbn [nth_error bname head tail bparent].
      repeat split. now destruct ls.
    + cbn [nth_error] in Hi |- *.
      destruct (IH (Some b) bs i bone Hlen Hbs Hi) as [Hn [Hh [Ht Hp]]].
      repeat split; try assumption.
      rewrite Hp. destruct i as [|j]; [|reflexivity].
      cbn [nth_error]. now apply parent_given_name.
Qed.

(** ** C3: a chain with all its guides *)

(** C3.  When the N guides of a chain are all in the scene, at the
    locations [locs], [create_bone_chain] returns N bones, which it has added
    to the armature: bone i is named after the chain's i-th bone name, its
    head is the location of guide i, its tail is the location of guide i+1
    (for the last bone: its head plus the fixed offset (0,0,0.1)), the first
    bone has no parent, and every later bone has the bone before it as parent
    and starts where that bone ends. *)
Theorem create_bone_chain_all_present
    (s : Blender) (arm : ObjRef) (a : Object)
    (guide_names bone_names : list string) (locs : list Vector) :
  find_object arm (objects s) = Some a ->
  map (guide_location s) guide_names = map Some locs ->
  List.length bone_names = List.length guide_names ->
  Forall (fun b => b <> "") bone_names ->
  exists created s',
    GenerateRig.create_bone_chain arm guide_names bone_names s = Ok (created, s')
    /\ List.length created = List.length guide_names
    /\ current_bones arm s' = edit_bones a ++ created
    /\ (forall i bone, nth_error created i = Some bone ->
          nth_error bone_names i = Some (bname bone)
          /\ nth_error locs i = Some (head bone)
          /\ (forall l, nth_error locs (S i) = Some l -> tail bone = l)
          /\ (S i = List.length guide_names ->
              tail bone = head bone +v GenerateRig.tail_offset)
          /\ (i = O -> bparent bone = None))
    /\ (forall j before bone,
          nth_error created j = Some before ->
          nth_error created (S j) = Some bone ->
          bparent bone = Some (bname before) /\ head bone = tail before).
Proof.
  intros Ha Hlocs Hlen Hne.
  assert (Hll : List.length locs = List.length guide_names).
  { apply (f_equal (@List.length _)) in Hlocs. now rewrite !length_map in Hlocs. }
  assert (Hbl : List.length bone_names = List.length locs) by congruence.
  exists (chain_pure None (map Some locs) bone_names).
  eexists. split; [|split; [|split; [|split]]].
  - rewrite (create_bone_chain_run _ _ _ _ _ Ha), Hlocs. reflexivity.
  - rewrite chain_pure_present_length; assumption.
  - apply (current_grow_bones _ _ _ _ Ha).
  - intros i bone Hi.
    destruct (chain_pure_present_nth locs None bone_names i bone Hbl Hne Hi)
      as [Hn [Hh [Ht Hp]]].
    repeat split; try assumption.
    + intros l Hl. rewrite Ht. now apply nth_error_nth.
    + intros Hi'. rewrite Ht. apply nth_overflow. lia.
    + intros ->. exact Hp.
  - intros j before bone Hj Hsj.
    destruct (chain_pure_present_nth locs None bone_names j before Hbl Hne Hj)
      as [Hn [Hh [Ht Hp]]].
    destruct (chain_pure_present_nth locs None bone_names (S j) bone Hbl Hne Hsj)
      as [Hn' [Hh' [Ht' Hp']]].
    split; [congruence|].
    rewrite Ht. symmetry. now apply nth_error_nth.
Qed.

Lemma create_bone_chain_all_present_witness :
  exists created s',
    GenerateRig.create_bone_chain 9 spine_guide_names spine_bone_names spine_scene
    = Ok (created, s')
    /\ List.length created = 4%nat
    /\ current_bones 9 s' = [host_default_bone] ++ created
    /\ (forall i bone, nth_error created i = Some bone ->
          nth_error spine_bone_names i = Some (bname bone)
          /\ nth_error [Vec 0 0 0; Vec 0 0 0.6; Vec 0 0 1.2; Vec 0 0 1.8] i
             = Some (head bone)
          /\ (forall l, nth_error [Vec 0 0 0; Vec 0 0 0.6; Vec 0 0 1.2; Vec 0 0 1.8] (S i)
                        = Some l -> tail bone = l)
          /\ (S i = 4%nat -> tail bone = head bone +v GenerateRig.tail_offset)
          /\ (i = O -> bparent bone = None))
    /\ (forall j before bone,
          nth_error created j = Some before ->
          nth_error created (S j) = Some bone ->
          bparent bone = Some (bname before) /\ head bone = tail before).
Proof.
  apply (create_bone_chain_all_present spine_scene 9 empty_rig
           spine_guide_names spine_bone_names
           [Vec 0 0 0; Vec 0 0 0.6; Vec 0 0 1.2; Vec 0 0 1.8]).
  - reflexivity.
  - reflexivity.
  - reflexivity.
  - repeat constructor; discriminate.
Defined.

(** The chains of [execute] meet what the theorem asks of a chain: as many
    bone names as guide names, none of them empty; and the twenty bone names
    are pairwise distinct and differ from the host's default bone, so the host
    never has to rename a bone. *)
Lemma chains_well_formed :
  Forall (fun c => List.length (GenerateRig.bones c) = List.length (GenerateRig.guides c)
                   /\ Forall (fun b => b <> "") (GenerateRig.bones c))
    GenerateRig.chains
  /\ NoDup (bname host_default_bone :: flat_map GenerateRig.bones GenerateRig.chains).
Proof.
  split.
  - repeat constructor; discriminate.
  - lazy [GenerateRig.chains GenerateRig.bones flat_map app bname host_default_bone].
    repeat (constructor; [cbn [In]; intuition discriminate|]). constructor.
Qed.

(** Guides first, rig second, on the 3-by-2 mesh: every chain comes out
    linked, each chain's first bone without a parent. *)
Example guides_then_rig_on_body_scene :
  exists s1 s2 rig,
    CreateGuides.execute body_scene = Ok (FINISHED, s1)
    /\ GenerateRig.execute s1 = Ok (FINISHED, s2)
    /\ lookup_name "AutoRig" (objects s2) = Some rig
    /\ map (fun b => (bname b, bparent b)) (edit_bones rig)
       = [ ("Bone", None);
           ("C_Root_Bone", None);
           ("C_Spine_01_Bone", Some "C_Root_Bone");
           ("C_Spine_02_Bone", Some "C_Spine_01_Bone");
           ("C_Spine_03_Bone", Some "C_Spine_02_Bone");
           ("L_Shoulder_Bone", None);
           ("L_Arm_Bone", Some "L_Shoulder_Bone");
           ("L_Forearm_Bone", Some "L_Arm_Bone");
           ("L_Hand_Bone", Some "L_Forearm_Bone");
           ("R_Shoulder_Bone", None);
           ("R_Arm_Bone", Some "R_Shoulder_Bone");
           ("R_Forearm_Bone", Some "R_Arm_Bone");
           ("R_Hand_Bone", Some "R_Forearm_Bone");
           ("L_Hip_Bone", None);
           ("L_Thigh_Bone", Some "L_Hip_Bone");
           ("L_Shin_Bone", Some "L_Thigh_Bone");
           ("L_Foot_Bone", Some "L_Shin_Bone");
           ("R_Hip_Bone", None);
           ("R_Thigh_Bone", Some "R_Hip_Bone");
           ("R_Shin_Bone", Some "R_Thigh_Bone");
           ("R_Foot_Bone", Some "R_Shin_Bone") ].
Proof. do 3 eexists. repeat split; vm_compute; reflexivity. Qed.

(** ** C1: a chain with a missing middle guide *)

Lemma nth_error_last_default {A} (l : list A) (d : A) :
  l <> [] -> nth_error l (List.length l - 1) = Some (last l d).
Proof.
  intros Hl. destruct (exists_last Hl) as [l' [x ->]].
  rewrite last_last, length_app. cbn [List.length].
  replace (List.length l' + 1 - 1)%nat with (List.length l') by lia.
  apply nth_error_last.
Qed.

(** Past a missing guide the chain goes on from the bone made last. *)
Lemma chain_pure_missing ls grest bk brest :
  forall l prev bpre,
    List.length bpre = S (List.length ls) ->
    chain_pure prev (map Some (l :: ls) ++ None :: grest) (bpre ++ bk :: brest)
    = chain_pure prev (map Some (l :: ls)) bpre
      ++ chain_pure (Some (last bpre "")) grest brest.
Proof.
  induction ls as [|l' ls' IH]; intros l prev bpre Hlen.
  - destruct bpre as [|b [|? ?]]; try discriminate Hlen. reflexivity.
  - destruct bpre as [|b [|b' bs]]; try discriminate Hlen.
    injection Hlen as Hlen.
    specialize (IH l' (Some b) (b' :: bs)).
    cbn [map app chain_pure] in IH |- *. rewrite IH by (cbn; lia).
    reflexivity.
Qed.

(** C1 (amended).  When a middle guide of a chain is missing from the scene
    (the guides before and after it being present), [create_bone_chain]
    reports no error and makes no bone for that guide; the bone made for the
    guide before it gets the fixed-offset tail, and the bone made for the
    guide after it is created with that earlier bone as its parent: the
    parent linkage has no gap. *)
Theorem create_bone_chain_missing_middle
    (s : Blender) (arm : ObjRef) (a : Object)
    (gpre gpost bpre bpost : list string) (gk bk : string)
    (lpre lpost : list Vector) :
  find_object arm (objects s) = Some a ->
  map (guide_location s) gpre = map Some lpre ->
  guide_location s gk = None ->
  map (guide_location s) gpost = map Some lpost ->
  gpre <> [] -> gpost <> [] ->
  List.length bpre = List.length gpre ->
  List.length bpost = List.length gpost ->
  Forall (fun b => b <> "") (bpre ++ bpost) ->
  exists created s' before after,
    GenerateRig.create_bone_chain arm (gpre ++ gk :: gpost) (bpre ++ bk :: bpost) s
    = Ok (created, s')
    /\ map bname created = bpre ++ bpost
    /\ current_bones arm s' = edit_bones a ++ created
    /\ nth_error created (List.length gpre - 1) = Some before
    /\ nth_error created (List.length gpre) = Some after
    /\ tail before = head before +v GenerateRig.tail_offset
    /\ nth_error lpost 0 = Some (head after)
    /\ nth_error bpost 0 = Some (bname after)
    /\ bparent after = Some (bname before).
Proof.
  intros Ha Hpre Hk Hpost Hgpre Hgpost Hbpre Hbpost Hne.
  apply Forall_app in Hne. destruct Hne as [Hne_pre Hne_post].
  assert (Hlpre : List.length lpre = List.length gpre).
  { apply (f_equal (@List.length _)) in Hpre. now rewrite !length_map in Hpre. }
  assert (Hlpost : List.length lpost = List.length gpost).
  { apply (f_equal (@List.length _)) in Hpost. now rewrite !length_map in Hpost. }
  destruct lpre as [|l ls]; [destruct gpre; [contradiction|discriminate Hlpre]|].
  destruct lpost as [|l2 ls2]; [destruct gpost; [contradiction|discriminate Hlpost]|].
  destruct bpost as [|b2 bs2]; [destruct gpost; [contradiction|discriminate Hbpost]|].
  assert (Hbl : List.length bpre = List.length (l :: ls)) by congruence.
  assert (Hbne : bpre <> []) by (intros ->; discriminate Hbl).
  set (A := chain_pure None (map Some (l :: ls)) bpre).
  set (B := chain_pure (Some (last bpre "")) (map Some (l2 :: ls2)) (b2 :: bs2)).
  assert (Hrun : GenerateRig.create_bone_chain arm (gpre ++ gk :: gpost)
                   (bpre ++ bk :: b2 :: bs2) s
                 = Ok (A ++ B, grow_bones arm (A ++ B) s)).
  { rewrite (create_bone_chain_run _ _ _ _ _ Ha).
    rewrite map_app. cbn [map]. rewrite Hpre, Hk, Hpost.
    rewrite chain_pure_missing by (cbn [List.length] in Hbl; exact Hbl).
    reflexivity. }
  assert (HlenA : List.length A = List.length gpre).
  { subst A. rewrite chain_pure_present_length; congruence. }
  assert (Hbefore : exists before, nth_error A (List.length gpre - 1) = Some before).
  { destruct (nth_error A (List.length gpre - 1)) as [x|] eqn:E; [now exists x|].
    apply nth_error_None in E. cbn [List.length] in Hlpre. lia. }
  destruct Hbefore as [before Hb].
  destruct (chain_pure_present_nth (l :: ls) None bpre _ before Hbl Hne_pre Hb)
    as [Hn [_ [Ht _]]].
  assert (Hlast : bname before = last bpre "").
  { rewrite <- Hbpre, (nth_error_last_default bpre "" Hbne) in Hn. congruence. }
  assert (Hlast_ne : last bpre "" <> "").
  { rewrite <- Hbpre in Hn. apply nth_error_In in Hn.
    rewrite Forall_forall in Hne_pre. rewrite <- Hlast. now apply Hne_pre. }
  exists (A ++ B), (grow_bones arm (A ++ B) s), before,
    (mkBone b2 l2 (match map Some ls2 with
                   | Some l' :: _ => l'
                   | _ => l2 +v GenerateRig.tail_offset
                   end) (parent_given (Some (last bpre "")))).
  split; [exact Hrun|]. split.
  { rewrite map_app. subst A B. rewrite !chain_pure_present_names; congruence. }
  split; [apply (current_grow_bones _ _ _ _ Ha)|]. split.
  { rewrite nth_error_app1; [exact Hb|]. cbn [List.length] in Hlpre. lia. }
  split.
  { rewrite nth_error_app2 by lia. rewrite HlenA, Nat.sub_diag. reflexivity. }
  split.
  { rewrite Ht. apply nth_overflow. cbn [List.length] in Hlpre |- *. lia. }
  cbn [nth_error head bname bparent]. repeat split.
  rewrite parent_given_name by exact Hlast_ne. congruence.
Qed.

Lemma create_bone_chain_missing_middle_witness :
  exists created s' before after,
    GenerateRig.create_bone_chain 9
      (["C_Root_Guide"] ++ "C_Spine_01_Guide" :: ["C_Spine_02_Guide"; "C_Spine_03_Guide"])
      (["C_Root_Bone"] ++ "C_Spine_01_Bone" :: ["C_Spine_02_Bone"; "C_Spine_03_Bone"])
      gap_scene
    = Ok (created, s')
    /\ map bname created = ["C_Root_Bone"] ++ ["C_Spine_02_Bone"; "C_Spine_03_Bone"]
    /\ current_bones 9 s' = [host_default_bone] ++ created
    /\ nth_error created 0 = Some before
    /\ nth_error created 1 = Some after
    /\ tail before = head before +v GenerateRig.tail_offset
    /\ nth_error [Vec 0 0 1.2; Vec 0 0 1.8] 0 = Some (head after)
    /\ nth_error ["C_Spine_02_Bone"; "C_Spine_03_Bone"] 0 = Some (bname after)
    /\ bparent after = Some (bname before).
Proof.
  apply (create_bone_chain_missing_middle gap_scene 9 empty_rig
           ["C_Root_Guide"] ["C_Spine_02_Guide"; "C_Spine_03_Guide"]
           ["C_Root_Bone"] ["C_Spine_02_Bone"; "C_Spine_03_Bone"]
           "C_Spine_01_Guide" "C_Spine_01_Bone"
           [Vec 0 0 0] [Vec 0 0 1.2; Vec 0 0 1.8]);
    try reflexivity; try discriminate.
  repeat constructor; discriminate.
Defined.

(** C1, as stated, fails when [C_Spine_01_Guide] is missing: generate-rig
    finishes, and the armature holds no [C_Spine_02_Bone] without a parent
    (the bone after the gap is parented to [C_Root_Bone]). *)
Lemma bone_after_gap_is_parented :
  ~ (exists s' rig bone,
       GenerateRig.execute gap_guides_scene = Ok (FINISHED, s')
       /\ lookup_name "AutoRig" (objects s') = Some rig
       /\ In bone (edit_bones rig)
       /\ bname bone = "C_Spine_02_Bone"
       /\ bparent bone = None).
Proof.
  intros [s' [rig [bone [He [Hrig [Hin [Hn Hp]]]]]]].
  vm_compute in He. injection He as <-.
  vm_compute in Hrig. injection Hrig as <-.
  cbn [edit_bones In] in Hin.
  repeat (destruct Hin as [Hin|Hin]); try contradiction;
    subst bone; cbn [bname bparent] in Hn, Hp; discriminate.
Qed.

(** ** C2: where the armature of generate-rig comes from *)







(** ** C10: clear-binding *)






(** An active mesh that is not selected is outside the host operator's reach:
    the operator still returns FINISHED and the mesh keeps its parent. *)
Example clear_binding_unselected_active_mesh :
  exists s',
    ClearBinding.execute unselected_bound_scene = Ok (FINISHED, s')
    /\ option_map parent (find_object 2 (objects s')) = Some (Some 1%nat).
Proof. eexists. split; reflexivity. Qed.

Example bound_mesh_world :
  matrix_world (objects bound_scene) bound_mesh =v Vec 1 2 3.5.
Proof. repeat split; reflexivity. Qed.

(** ** C6: create-human-rig clears the armatures first *)

Lemma human_create_bone_run arm n hd tl p s a :
  find_object arm (objects s) = Some a ->
  HumanRig.create_bone arm n hd tl p s
  = match human_bone (edit_bones a) (n, hd, tl, p) with
    | Some bone => Ok (bone, with_bones arm (edit_bones a ++ [bone]) s)
    | None => Raise "KeyError"
    end.
Proof.
  intros H.
  unfold HumanRig.create_bone, edit_bones_new, bone_update, bone_get, human_bone.
  rewrite bind_bind. run_bones H. rewrite bind_bind. run_bones H.
  erewrite bind_ok by reflexivity.
  run_bones H. rewrite list_update_last.
  run_bones H. rewrite list_update_last.
  change (set_tail tl (set_head hd (mkBone n vzero vzero None)))
    with (mkBone n hd tl None).
  destruct (truthy p).
  - rewrite bind_bind. run_bones H. cbn [edit_bones set_edit_bones].
    destruct (bone_lookup _ _) as [pb|]; cbn [option_map].
    + run_bones H. rewrite list_update_last.
      run_bones H. cbn [edit_bones set_edit_bones]. rewrite nth_error_last.
      reflexivity.
    + reflexivity.
  - erewrite bind_ok by reflexivity.
    run_bones H. cbn [edit_bones set_edit_bones]. rewrite nth_error_last.
    reflexivity.
Qed.






(** On the scene with an old "AutoRig": the rig is gone, the mesh that was
    bound to it and the camera stay, and the mesh is left without a parent. *)
Example create_human_rig_on_rigged_scene :
  exists s',
    HumanRig.execute rigged_scene = Ok (FINISHED, s')
    /\ map (fun o => (name o, type o, parent o)) (objects s')
       = [ ("Body", "MESH", None); ("Camera", "CAMERA", None);
           ("Human_Rig", "ARMATURE", None) ].
Proof. eexists. split; vm_compute; reflexivity. Qed.


(** * More of the operators *)

(** ** bind-mesh *)

Lemma find_app_last {A} (p : A -> bool) l x :
  find p (l ++ [x])
  = match find p l with
    | Some y => Some y
    | None => if p x then Some x else None
    end.
Proof.
  induction l as [|y r IH]; cbn [app find]; [reflexivity|].
  destruct (p y); [reflexivity|exact IH].
Qed.

Lemma selected_mesh_is_no_rig o : is_selected_mesh o = true -> is_auto_rig o = false.
Proof.
  unfold is_selected_mesh, is_auto_rig. intros H.
  apply andb_true_iff in H. destruct H as [H _]. apply String.eqb_eq in H.
  rewrite H. reflexivity.
Qed.

(** The loop keeps the last selected mesh and the last "AutoRig" armature. *)
Lemma scan_last os :
  forall m0 a0,
    BindMesh.scan os m0 a0
    = (match last_such is_selected_mesh os with Some m => Some m | None => m0 end,
       match last_such is_auto_rig os with Some a => Some a | None => a0 end).
Proof.
  unfold last_such. induction os as [|o r IH]; intros m0 a0; [reflexivity|].
  cbn [BindMesh.scan rev]. rewrite !find_app_last.
  fold (is_selected_mesh o). fold (is_auto_rig o).
  destruct (is_selected_mesh o) eqn:Em.
  - rewrite IH, (selected_mesh_is_no_rig o Em).
    destruct (find is_selected_mesh (rev r)), (find is_auto_rig (rev r)); reflexivity.
  - destruct (is_auto_rig o); rewrite IH;
      destruct (find is_selected_mesh (rev r)), (find is_auto_rig (rev r)); reflexivity.
Qed.

Lemma last_such_none p os :
  (forall o, In o os -> p o = false) -> last_such p os = None.
Proof.
  intros H. unfold last_such.
  destruct (find p (rev os)) as [o|] eqn:E; [|reflexivity].
  apply find_some in E. destruct E as [Hin Hp].
  rewrite (H o) in Hp; [discriminate|]. now apply in_rev.
Qed.


(** Bind-mesh gives up, with a report and nothing else changed, when either
    of its two finds is missing. *)
Lemma bind_mesh_gives_up s :
  last_such is_selected_mesh (objects s) = None
  \/ last_such is_auto_rig (objects s) = None ->
  BindMesh.execute s
  = Ok (CANCELLED,
        add_report "ERROR" "Please select the mesh and ensure the rig exists" s).
Proof.
  intros H. unfold BindMesh.execute.
  erewrite bind_ok by reflexivity. cbv beta. rewrite scan_last.
  destruct H as [-> | ->].
  - reflexivity.
  - destruct (last_such is_selected_mesh (objects s)); reflexivity.
Qed.

(** X1.  Without a selected mesh, or without an armature named "AutoRig", bind-mesh
    reports "Please select the mesh and ensure the rig exists", returns
    CANCELLED and leaves every object, the selection and the active object as
    they were: no parent relationship is made. *)
Theorem bind_mesh_cancelled (s : Blender) :
  (forall o, In o (objects s) -> ~ (type o = "MESH" /\ select o = true))
  \/ (forall o, In o (objects s) -> ~ (type o = "ARMATURE" /\ name o = "AutoRig")) ->
  exists s',
    BindMesh.execute s = Ok (CANCELLED, s')
    /\ reports s'
       = reports s ++ [("ERROR", "Please select the mesh and ensure the rig exists")]
    /\ objects s' = objects s
    /\ active s' = active s.
Proof.
  intros H. eexists. split; [apply bind_mesh_gives_up|repeat split].
  destruct H as [H|H]; [left|right]; apply last_such_none; intros o Ho;
    specialize (H o Ho).
  - unfold is_selected_mesh. destruct (String.eqb_spec (type o) "MESH") as [E|_];
      [|reflexivity].
    destruct (select o); [|reflexivity]. exfalso. now apply H.
  - unfold is_auto_rig. destruct (String.eqb_spec (type o) "ARMATURE") as [E|_];
      [|reflexivity].
    destruct (String.eqb_spec (name o) "AutoRig") as [E'|_]; [|reflexivity].
    exfalso. now apply H.
Qed.

Lemma bind_mesh_cancelled_witness :
  exists s',
    BindMesh.execute camera_scene = Ok (CANCELLED, s')
    /\ reports s'
       = reports camera_scene
         ++ [("ERROR", "Please select the mesh and ensure the rig exists")]
    /\ objects s' = objects camera_scene
    /\ active s' = active camera_scene.
Proof.
  apply (bind_mesh_cancelled camera_scene).
  right. intros o Ho [Ht _]. cbn in Ho.
  destruct Ho as [<-|[<-|[]]]; discriminate Ht.
Defined.













(** ** generate-rig as a whole *)











(** ** Guides first, rig second *)





(** ** create-guides: what the guides carry and what is selected afterwards *)










(** ** Which side of the mesh the guides are on *)

Lemma max_of_ge x r : x <= max_of x r.
Proof.
  unfold max_of. revert x. induction r as [|y r IH]; intros x; cbn [fold_left].
  - apply Qle_refl.
  - destruct (Qle_bool y x) eqn:E; [apply IH|].
    apply Qle_trans with y; [|apply IH].
    destruct (Qlt_le_dec x y) as [H|H]; [now apply Qlt_le_weak|].
    apply Qle_bool_iff in H. congruence.
Qed.

Lemma min_of_le x r : min_of x r <= x.
Proof.
  unfold min_of. revert x. induction r as [|y r IH]; intros x; cbn [fold_left].
  - apply Qle_refl.
  - destruct (Qle_bool x y) eqn:E; [apply IH|].
    apply Qle_trans with y; [apply IH|].
    destruct (Qlt_le_dec y x) as [H|H]; [now apply Qlt_le_weak|].
    apply Qle_bool_iff in H. congruence.
Qed.

Lemma bbox_extent_nonneg b bs : 0 <= bbox_height b bs /\ 0 <= bbox_width b bs.
Proof.
  unfold bbox_height, bbox_width.
  pose proof (max_of_ge (vz b) (map vz bs)). pose proof (min_of_le (vz b) (map vz bs)).
  pose proof (max_of_ge (vx b) (map vx bs)). pose proof (min_of_le (vx b) (map vx bs)).
  split; lra.
Qed.

(** X10.  The height and width create-guides measures are never negative, so no
    guide is placed below the mesh's origin, the centre ("C_") guides keep the
    origin's x, the left ("L_") guides are never on its negative-x side and
    the right ("R_") guides never on its positive-x side. *)
Theorem guides_keep_to_their_side (s : Blender) (mesh_obj : Object) b bs :
  active_object s = Some mesh_obj ->
  type mesh_obj = "MESH" ->
  bound_box mesh_obj = b :: bs ->
  exists s',
    CreateGuides.execute s = Ok (FINISHED, s')
    /\ forall g, In g (added s s') ->
         vz (location mesh_obj) <= vz (location g)
         /\ (String.prefix "C_" (name g) = true ->
             vx (location g) == vx (location mesh_obj))
         /\ (String.prefix "L_" (name g) = true ->
             vx (location mesh_obj) <= vx (location g))
         /\ (String.prefix "R_" (name g) = true ->
             vx (location g) <= vx (location mesh_obj)).
Proof.
  intros Ha Ht Hb.
  destruct (create_guides_added s mesh_obj b bs Ha Ht Hb) as [s' [He [_ [Hg _]]]].
  exists s'. split; [exact He|]. intros g Hin.
  destruct (added_guide_entry _ _ _ _ Hg Hin) as [e [He' [Hn [Hl _]]]].
  rewrite Hn, Hl. clear Hn Hl Hg Hin He.
  destruct (bbox_extent_nonneg b bs) as [Hh Hw].
  remember (bbox_height b bs) as h eqn:Eh. remember (bbox_width b bs) as w eqn:Ew.
  destruct (location mesh_obj) as [cx cy cz]. clear Eh Ew.
  table_entries He'; subst e;
    lazy -[Qmult Qplus Qminus Qopp Qeq Qdiv Qinv Qle Qlt];
    repeat split; intros; try discriminate; lra.
Qed.

Lemma guides_keep_to_their_side_witness :
  exists s',
    CreateGuides.execute body_scene = Ok (FINISHED, s')
    /\ forall g, In g (added body_scene s') ->
         vz (location body_mesh) <= vz (location g)
         /\ (String.prefix "C_" (name g) = true ->
             vx (location g) == vx (location body_mesh))
         /\ (String.prefix "L_" (name g) = true ->
             vx (location body_mesh) <= vx (location g))
         /\ (String.prefix "R_" (name g) = true ->
             vx (location g) <= vx (location body_mesh)).
Proof.
  apply (guides_keep_to_their_side body_scene body_mesh
           (Vec (-1) (-1) 0)
           [ Vec (-1) (-1) 3; Vec (-1) 1 3; Vec (-1) 1 0;
             Vec 1 (-1) 0; Vec 1 (-1) 3; Vec 1 1 3; Vec 1 1 0 ]);
    reflexivity.
Defined.


(** ** create_bone: a parent name the armature does not hold *)




(** X12.  The module-level [create_bone] of create_armature.py indexes the edit
    bones with the parent's name: for a non-empty name that no bone of the
    armature bears (and that is not the new bone's own) it raises KeyError. *)
Theorem human_create_bone_raises_on_unknown_parent
    (s : Blender) (arm : ObjRef) (a : Object) (n q : string) (hd tl : Vector) :
  find_object arm (objects s) = Some a ->
  q <> "" -> q <> n ->
  (forall b, In b (edit_bones a) -> bname b <> q) ->
  HumanRig.create_bone arm n hd tl (Some q) s = Raise "KeyError".
Proof.
  intros Ha Hq Hqn Hnone.
  rewrite (human_create_bone_run _ _ _ _ _ _ _ Ha).
  unfold human_bone. cbn [truthy].
  destruct (String.eqb_spec q ""); [contradiction|]. cbn [negb].
  assert (E : bone_lookup q (edit_bones a ++ [mkBone n hd tl None]) = None).
  { unfold bone_lookup.
    destruct (find _ _) as [b|] eqn:F; [|reflexivity].
    apply find_some in F. destruct F as [Hin Hb]. apply String.eqb_eq in Hb.
    apply in_app_or in Hin. destruct Hin as [Hin|[<-|[]]].
    - exfalso. now apply (Hnone b).
    - cbn [bname] in Hb. congruence. }
  now rewrite E.
Qed.

Lemma human_create_bone_raises_on_unknown_parent_witness :
  HumanRig.create_bone 9 "Tail" (Vec 0 0 0) (Vec 0 1 0) (Some "Pelvis") spine_scene
  = Raise "KeyError".
Proof.
  apply (human_create_bone_raises_on_unknown_parent spine_scene 9 empty_rig);
    try reflexivity; try discriminate.
  intros b [<-|[]]. discriminate.
Defined.

(** ** Bone chains with any guides missing *)

Lemma chain_pure_links glocs :
  forall prev bone_names,
    Forall (fun b => b <> "") bone_names ->
    (forall b, nth_error (chain_pure prev glocs bone_names) 0 = Some b ->
               bparent b = parent_given prev)
    /\ (forall j b1 b2,
          nth_error (chain_pure prev glocs bone_names) j = Some b1 ->
          nth_error (chain_pure prev glocs bone_names) (S j) = Some b2 ->
          bparent b2 = Some (bname b1)).
Proof.
  induction glocs as [|g gl IH]; intros prev bns Hne.
  - split; [intros b H|intros j b1 b2 H]; destruct bns; cbn in H;
      try discriminate H; destruct j; discriminate H.
  - destruct bns as [|b bs].
    + destruct g; split; [intros b H|intros j b1 b2 H| intros b H|intros j b1 b2 H];
        cbn in H; try discriminate H; destruct j; discriminate H.
    + inversion Hne as [|? ? Hb Hbs]; subst.
      destruct g as [l|]; cbn [chain_pure].
      * destruct (IH (Some b) bs Hbs) as [IH0 IHs]. split.
        -- intros b0 H. injection H as <-. reflexivity.
        -- intros j b1 b2 H1 H2. destruct j as [|j].
           ++ injection H1 as <-. cbn [nth_error] in H2.
              rewrite (IH0 b2 H2). now apply parent_given_name.
           ++ cbn [nth_error] in H1, H2. exact (IHs j b1 b2 H1 H2).
      * exact (IH prev bs Hbs).
Qed.

Lemma chain_pure_count glocs :
  forall prev bone_names,
    List.length (chain_pure prev glocs bone_names)
    = List.length (filter is_present (firstn (List.length bone_names) glocs)).
Proof.
  induction glocs as [|g gl IH]; intros prev bns.
  - now destruct bns.
  - destruct bns as [|b bs]; [now destruct g|].
    destruct g as [l|]; cbn [chain_pure List.length firstn filter is_present].
    + f_equal. apply IH.
    + apply IH.
Qed.

Lemma chain_pure_heads glocs :
  forall prev bone_names b,
    In b (chain_pure prev glocs bone_names) -> In (Some (head b)) glocs.
Proof.
  induction glocs as [|g gl IH]; intros prev bns b Hb.
  - destruct bns; contradiction.
  - destruct bns as [|b0 bs]; [destruct g; contradiction|].
    destruct g as [l|]; cbn [chain_pure] in Hb.
    + destruct Hb as [<-|Hb]; [now left|]. right. exact (IH _ _ _ Hb).
    + right. exact (IH _ _ _ Hb).
Qed.

(** X13.  Whatever guides of a chain are missing, [create_bone_chain] reports no
    error and makes one bone for every guide that is present (among the guides
    that have a bone name), each with its head on its guide; the first bone
    made has no parent and every later bone has the bone made just before it
    as parent, so the bones always form one unbroken line of parents. *)
Theorem bone_chain_is_one_line_of_parents
    (s : Blender) (arm : ObjRef) (a : Object) (guide_names bone_names : list string) :
  find_object arm (objects s) = Some a ->
  Forall (fun b => b <> "") bone_names ->
  exists created s',
    GenerateRig.create_bone_chain arm guide_names bone_names s = Ok (created, s')
    /\ current_bones arm s' = edit_bones a ++ created
    /\ List.length created
       = List.length (filter is_present
                        (firstn (List.length bone_names)
                           (map (guide_location s) guide_names)))
    /\ (forall b, In b created ->
          exists g, In g guide_names /\ guide_location s g = Some (head b))
    /\ (forall b, nth_error created 0 = Some b -> bparent b = None)
    /\ (forall j b1 b2,
          nth_error created j = Some b1 ->
          nth_error created (S j) = Some b2 ->
          bparent b2 = Some (bname b1)).
Proof.
  intros Ha Hne. eexists _, _.
  split; [apply (create_bone_chain_run _ _ _ _ _ Ha)|].
  split; [apply (current_grow_bones _ _ _ _ Ha)|].
  split; [apply chain_pure_count|].
  destruct (chain_pure_links (map (guide_location s) guide_names) None bone_names Hne)
    as [H0 Hs].
  split; [|split; [exact H0|exact Hs]].
  intros b Hb. apply chain_pure_heads in Hb. apply in_map_iff in Hb.
  destruct Hb as [g [Hg Hin]]. exists g. split; assumption.
Qed.

Lemma bone_chain_is_one_line_of_parents_witness :
  exists created s',
    GenerateRig.create_bone_chain 9 spine_guide_names spine_bone_names gap_scene
    = Ok (created, s')
    /\ current_bones 9 s' = edit_bones empty_rig ++ created
    /\ List.length created
       = List.length (filter is_present
                        (firstn (List.length spine_bone_names)
                           (map (guide_location gap_scene) spine_guide_names)))
    /\ (forall b, In b created ->
          exists g, In g spine_guide_names /\ guide_location gap_scene g = Some (head b))
    /\ (forall b, nth_error created 0 = Some b -> bparent b = None)
    /\ (forall j b1 b2,
          nth_error created j = Some b1 ->
          nth_error created (S j) = Some b2 ->
          bparent b2 = Some (bname b1)).
Proof.
  apply (bone_chain_is_one_line_of_parents gap_scene 9 empty_rig).
  - reflexivity.
  - repeat constructor; discriminate.
Defined.


(** ** create-human-rig replaces, it does not stack *)





Lemma unlink_oid kept o : oid (unlink kept o) = oid o.
Proof. reflexivity. Qed.







(** ** clear-binding and the selection *)



